(** * A shallow embedding of [main.py], the ranobes.com metadata provider

    The development follows the layout of the Python module:
    text primitives ([str.strip], [str.join], the two regular
    expressions), the BeautifulSoup document tree with the CSS selectors
    the module uses, the [BookMetadata] schema, the settings read from
    the environment, and then the three coroutines
    [fetch_and_parse_book], [perform_search] and [search].

    Python text is modelled by [string]; a character is a code point
    below 256, which is where every literal of the module lives.
    Python [int] is [Z].  Exceptions are values of [exn]; a computation
    that talks to the network threads the list of requests issued so
    far.  The interpreter and the libraries are taken with their
    default settings. *)

From Stdlib Require Import ZArith NArith Ascii String List Lia.
From stdpp Require Import base option list strings pretty gmap.

Open Scope string_scope.

#[local] Set Warnings "-register-all".

(** ** Exceptions and the two monads *)

(** The exceptions the module can raise, all subclasses of
    [Exception]: the framework's [HTTPException], the lookup errors of
    the extraction, the [ValueError] of [int], pydantic's
    [ValidationError], bs4's [ParserRejectedMarkup], and
    [TransportError] for whatever the HTTP client raises (connection
    failure, timeout). *)
Inductive exn : Type :=
| HTTPException (status_code : Z) (detail : string)
| AttributeError
| TypeError
| KeyError
| IndexError
| ValueError
| ValidationError
| ParserRejectedMarkup
| TransportError.

Inductive Result (A : Type) : Type :=
| Ok (a : A)
| Raise (e : exn).
Arguments Ok {A} a.
Arguments Raise {A} e.

#[global] Instance result_ret : MRet Result := fun A a => Ok a.
#[global] Instance result_bind : MBind Result := fun A B f m =>
  match m with
  | Ok a => f a
  | Raise e => Raise e
  end.

(** ** Text primitives *)

Module Text.

(** [str.isspace] on one character (code points below 256). *)
Definition isspace (c : ascii) : bool :=
  let n := N_of_ascii c in
  (((9 <=? n) && (n <=? 13)) || ((28 <=? n) && (n <=? 32))
   || (n =? 133) || (n =? 160))%N.

(** [\d] on one character: below 256 only the ASCII digits are
    decimal digits. *)
Definition isdigit (c : ascii) : bool :=
  let n := N_of_ascii c in ((48 <=? n) && (n <=? 57))%N.

Definition newline : ascii := "010"%char.

Fixpoint lstrip (s : string) : string :=
  match s with
  | EmptyString => EmptyString
  | String c r => if isspace c then lstrip r else s
  end.

Fixpoint rstrip (s : string) : string :=
  match s with
  | EmptyString => EmptyString
  | String c r =>
      match rstrip r with
      | EmptyString => if isspace c then EmptyString else String c EmptyString
      | r' => String c r'
      end
  end.

(** [s.strip()] *)
Definition strip (s : string) : string := rstrip (lstrip s).

(** [sep.join(parts)] *)
Fixpoint join (sep : string) (parts : list string) : string :=
  match parts with
  | [] => ""
  | [p] => p
  | p :: rest => p +:+ sep +:+ join sep rest
  end.

(** Truthiness of a [str]: non-empty. *)
Definition nonempty (s : string) : bool :=
  match s with EmptyString => false | String _ _ => true end.

(** ASCII lower-casing, as the selector engine applies to tag names. *)
Definition lower_char (c : ascii) : ascii :=
  let n := N_of_ascii c in
  if ((65 <=? n) && (n <=? 90))%N then ascii_of_N (n + 32) else c.

Fixpoint lower (s : string) : string :=
  match s with
  | EmptyString => EmptyString
  | String c r => String (lower_char c) (lower r)
  end.

(** Whitespace-separated tokens of an attribute value
    (the class list of a tag). *)
Fixpoint tokens_aux (cur : string) (s : string) : list string :=
  match s with
  | EmptyString => if nonempty cur then [cur] else []
  | String c r =>
      if isspace c
      then (if nonempty cur then [cur] else []) ++ tokens_aux "" r
      else tokens_aux (cur +:+ String c "") r
  end.

Definition tokens (s : string) : list string := tokens_aux "" s.

(** The number a string of ASCII digits denotes. *)
Definition digit_value (c : ascii) : Z := Z.of_N (N_of_ascii c) - 48.

Fixpoint int_acc (acc : Z) (ds : string) : Z :=
  match ds with
  | EmptyString => acc
  | String c r => int_acc (10 * acc + digit_value c) r
  end.

Definition decimal (ds : string) : Z := int_acc 0 ds.

(** [sys.get_int_max_str_digits()], at its default. *)
Definition int_max_str_digits : N := 4300.

(** [int(ds)] for a string of ASCII digits: a numeral of more than
    [int_max_str_digits] digits raises [ValueError]. *)
Definition int (ds : string) : Result Z :=
  if (int_max_str_digits <? N.of_nat (String.length ds))%N
  then Raise ValueError
  else Ok (decimal ds).

End Text.

(** ** The two regular expressions of the module *)

Module Re.
Import Text.

(** The tail [(.*?)\)] of the cover pattern, run just after ["url("]:
    the lazy group takes characters one at a time, stops at the first
    [")"], and fails on a line feed, which [.] does not match. *)
Fixpoint lazy_to_paren (s : string) : option string :=
  match s with
  | EmptyString => None
  | String c r =>
      if bool_decide (c = ")"%char) then Some ""
      else if bool_decide (c = newline) then None
      else String c <$> lazy_to_paren r
  end.

(** [s] without the literal [p] it starts with, if it does. *)
Fixpoint after_prefix (p s : string) : option string :=
  match p with
  | EmptyString => Some s
  | String a p' =>
      match s with
      | EmptyString => None
      | String b s' => if bool_decide (a = b) then after_prefix p' s' else None
      end
  end.

(** The cover pattern anchored at the start of [s]:
    [re.match(r"url\((.*?)\)", s)], giving [group(1)]. *)
Definition url_at (s : string) : option string :=
  r ← after_prefix "url(" s; lazy_to_paren r.

(** [re.search(r"url\((.*?)\)", s)], giving [group(1)] of the match:
    the leftmost position at which the pattern matches. *)
Fixpoint search_url (s : string) : option string :=
  match url_at s with
  | Some tok => Some tok
  | None =>
      match s with
      | EmptyString => None
      | String _ r => search_url r
      end
  end.

(** The greedy [\d+] of the duration pattern: the longest run of
    digits at the start of [s], and what follows it. *)
Fixpoint span_digits (s : string) : string * string :=
  match s with
  | EmptyString => ("", "")
  | String c r =>
      if isdigit c
      then let '(ds, rest) := span_digits r in (String c ds, rest)
      else ("", s)
  end.

(** [re.match(r"PT(\d+)H", s)], giving [group(1)].  After the greedy
    run of digits the next character must be ["H"]; giving digits
    back cannot help, since the character after a shorter run is a
    digit. *)
Definition match_hours (s : string) : option string :=
  r ← after_prefix "PT" s;
  let '(ds, rest) := span_digits r in
  if nonempty ds then _ ← after_prefix "H" rest; Some ds else None.

End Re.

(** ** The document tree and the selector engine *)

Module Soup.
Import Text.

(** A node of the tree BeautifulSoup builds.  Every string node is a
    [str].  [NavigableString] is ordinary text (and CDATA);
    [ContainerString k] is the text the parser finds inside a [k] tag,
    for [k] one of [string_containers] below ([Script] inside
    [script], [Stylesheet] inside [style], and so on); [Comment]
    stands for the string nodes no [get_text] collects (comments,
    doctype, declarations, processing instructions). *)
Inductive PageElement : Type :=
| Tag (name : string) (attrs : gmap string string) (contents : list PageElement)
| NavigableString (text : string)
| ContainerString (container : string) (text : string)
| Comment (text : string).

(** The tags whose text the HTML tree builder keeps in a class of its
    own. *)
Definition string_containers : list string :=
  ["rt"; "rp"; "style"; "script"; "template"].

(** Name and attributes of a tag, what a selector looks at. *)
Definition Header : Type := string * gmap string string.

(** A tag together with its chain of parents, nearest first: bs4
    tags know their [.parent], and the descendant combinator climbs
    it past the tag [select] was called on. *)
Record Element : Type := mkElement {
  parents : list Header;
  name : string;
  attrs : gmap string string;
  contents : list PageElement
}.

Definition header (el : Element) : Header := (name el, attrs el).

(** One compound selector: [tag#id.class1.class2[attr='value']]. *)
Record Compound : Type := mkCompound {
  c_tag : option string;
  c_id : option string;
  c_classes : list string;
  c_attrs : list (string * string)
}.

(** A selector: compounds separated by the descendant combinator,
    written left to right as in the source. *)
Definition Selector : Type := list Compound.

(** [[attr='value']]: the engine compiles the value to the pattern
    [^value$] and applies [re.match], so a value with one trailing
    line feed matches too. *)
Definition attr_equals (actual expected : string) : bool :=
  bool_decide (actual = expected)
  || bool_decide (actual = expected +:+ String newline "").

Definition has_class (h : Header) (cls : string) : bool :=
  match h.2 !! "class" with
  | Some v => bool_decide (cls ∈ tokens v)
  | None => false
  end.

Definition has_attr (h : Header) (av : string * string) : bool :=
  match h.2 !! av.1 with
  | Some v => attr_equals v av.2
  | None => false
  end.

Definition matches_compound (c : Compound) (h : Header) : bool :=
  match c_tag c with
  | Some t => bool_decide (lower h.1 = lower t)
  | None => true
  end
  && match c_id c with
     | Some i => bool_decide (h.2 !! "id" = Some i)
     | None => true
     end
  && forallb (has_class h) (c_classes c)
  && forallb (has_attr h) (c_attrs c).

(** The compounds left of the subject, nearest first, matched
    against the chain of parents: each needs some ancestor above the
    one that matched the compound to its right. *)
Fixpoint match_past (rels : list Compound) (chain : list Header) : bool :=
  match rels with
  | [] => true
  | c :: rels' =>
      (fix climb (chain : list Header) : bool :=
         match chain with
         | [] => false
         | h :: up => (matches_compound c h && match_past rels' up) || climb up
         end) chain
  end.

Definition matches (sel : Selector) (el : Element) : bool :=
  match rev sel with
  | [] => false
  | subject :: rels =>
      matches_compound subject (header el) && match_past rels (parents el)
  end.

(** The tags below a node in document order, each with its parents. *)
Fixpoint walk (chain : list Header) (e : PageElement) : list Element :=
  match e with
  | Tag n a cs => mkElement chain n a cs :: flat_map (walk ((n, a) :: chain)) cs
  | NavigableString _ | ContainerString _ _ | Comment _ => []
  end.

(** [el.descendants], tags only; [el] itself is not among them. *)
Definition descendants (el : Element) : list Element :=
  flat_map (walk (header el :: parents el)) (contents el).

(** [el.select(sel)] *)
Definition select (el : Element) (sel : Selector) : list Element :=
  List.filter (matches sel) (descendants el).

(** [el.select_one(sel)] *)
Definition select_one (el : Element) (sel : Selector) : option Element :=
  head (select el sel).

(** [el.find(tag_name)]: the first descendant tag of that name. *)
Definition find (el : Element) (tag_name : string) : option Element :=
  head (List.filter (fun d => bool_decide (name d = tag_name)) (descendants el)).

(** [el.interesting_string_types]: a string container collects its
    own kind of string ([Some] of its name), any other tag ordinary
    text ([None]). *)
Definition interesting_string_types (el : Element) : option string :=
  if bool_decide (name el ∈ string_containers) then Some (name el) else None.

(** The strings of the kind [types] under a node, in document order. *)
Fixpoint all_strings (types : option string) (e : PageElement) : list string :=
  match e with
  | Tag _ _ cs => flat_map (all_strings types) cs
  | NavigableString s =>
      match types with
      | None => [s]
      | Some _ => []
      end
  | ContainerString k s => if bool_decide (types = Some k) then [s] else []
  | Comment _ => []
  end.

(** [el.get_text(separator=sep, strip=True)]: every string of the
    interesting kind below [el] is stripped, the empty ones are
    dropped, the rest joined. *)
Definition get_text (sep : string) (el : Element) : string :=
  join sep
    (List.filter nonempty
       (map strip (flat_map (all_strings (interesting_string_types el)) (contents el)))).

(** [el.get(key)] is [attrs el !! key]; [el[key]] raises [KeyError]
    where [get] gives [None]. *)
Definition get (el : Element) (key : string) : option string := attrs el !! key.

(** The [BeautifulSoup] object over the nodes the parser produced: a
    tag named [[document]] without attributes or parent. *)
Definition document (nodes : list PageElement) : Element :=
  mkElement [] "[document]" ∅ nodes.

(** Builders for the selectors of the module. *)
Definition tag_ (t : string) : Compound := mkCompound (Some t) None [] [].
Definition tag_class (t : string) (cls : list string) : Compound :=
  mkCompound (Some t) None cls [].
Definition class_ (cls : string) : Compound := mkCompound None None [cls] [].
Definition id_ (i : string) : Compound := mkCompound None (Some i) [] [].
Definition attr_ (a v : string) : Compound := mkCompound None None [] [(a, v)].
Definition tag_attr (t a v : string) : Compound := mkCompound (Some t) None [] [(a, v)].

End Soup.

(** ** Lookups that raise *)

(** [None.attr] raises [AttributeError]. *)
Definition deref {A} (o : option A) : Result A :=
  match o with
  | Some a => Ok a
  | None => Raise AttributeError
  end.

(** [o[key]]: [TypeError] on [None], [KeyError] on a tag without the
    attribute. *)
Definition subscript (o : option Soup.Element) (key : string) : Result string :=
  match o with
  | None => Raise TypeError
  | Some el =>
      match Soup.get el key with
      | Some v => Ok v
      | None => Raise KeyError
      end
  end.

(** ** Schemas *)

Record SeriesMetadata : Type := {
  series_name : string;
  sequence : option string
}.

Record BookMetadata : Type := mkBook {
  title : string;
  subtitle : option string;
  author : option string;
  narrator : option string;
  publisher : option string;
  publishedYear : option string;
  description : option string;
  cover : option string;
  isbn : option string;
  asin : option string;
  genres : option (list string);
  tags : option (list string);
  series : option (list SeriesMetadata);
  language : option string;
  duration : option Z
}.

(** What [title] holds before the record is built: a [str], or the
    [ResultSet] that calling a tag produces. *)
Inductive TitleValue : Type :=
| TitleStr (s : string)
| TitleResultSet.

(** [BookMetadata(title=..., subtitle=..., ...)] as line 97 calls it:
    the fields not passed take the defaults of the class, and pydantic
    rejects a title that is not a [str]. *)
Definition new_BookMetadata (title : TitleValue)
    (subtitle description cover publishedYear language publisher : option string)
    (genres tags : list string) (duration : option Z) : Result BookMetadata :=
  match title with
  | TitleStr t =>
      Ok {| title := t; subtitle := subtitle; author := None; narrator := None;
            publisher := publisher; publishedYear := publishedYear;
            description := description; cover := cover; isbn := None; asin := None;
            genres := Some genres; tags := Some tags; series := Some [];
            language := language; duration := duration |}
  | TitleResultSet => Raise ValidationError
  end.

(** ** Settings from the environment *)

(** The interpreter state the module sees: [os.environ] as it stands
    now, and the three module globals, assigned once when the module
    is imported. *)
Record Process : Type := mkProcess {
  environ : gmap string string;
  COOKIE_DLE_USER_ID : option string;
  COOKIE_DLE_PASSWORD : option string;
  COOKIE_PHPSESSID : option string
}.

(** [os.getenv(name)] *)
Definition getenv (env : gmap string string) (name : string) : option string :=
  env !! name.

(** Importing the module (lines 41-43) in a process whose environment
    is [env]. *)
Definition import_module (env : gmap string string) : Process :=
  {| environ := env;
     COOKIE_DLE_USER_ID := getenv env "DLE_USER_ID";
     COOKIE_DLE_PASSWORD := getenv env "DLE_PASSWORD";
     COOKIE_PHPSESSID := getenv env "PHPSESSID" |}.

(** The process once its environment has become [env]: nothing
    assigns the module globals again. *)
Definition with_environ (env : gmap string string) (p : Process) : Process :=
  {| environ := env;
     COOKIE_DLE_USER_ID := COOKIE_DLE_USER_ID p;
     COOKIE_DLE_PASSWORD := COOKIE_DLE_PASSWORD p;
     COOKIE_PHPSESSID := COOKIE_PHPSESSID p |}.

(** Truthiness of an [Optional[str]]: neither [None] nor [""]. *)
Definition truthy (o : option string) : bool :=
  match o with
  | Some s => Text.nonempty s
  | None => false
  end.

(** [all(xs)] *)
Definition all (xs : list (option string)) : bool := forallb truthy xs.

Definition get_auth_cookies (p : Process) : Result (gmap string (option string)) :=
  if negb (all [COOKIE_DLE_USER_ID p; COOKIE_DLE_PASSWORD p; COOKIE_PHPSESSID p])
  then Raise (HTTPException 401 "Missing required authentication environment variables")
  else Ok (<["dle_user_id" := COOKIE_DLE_USER_ID p]>
           (<["dle_password" := COOKIE_DLE_PASSWORD p]>
            (<["PHPSESSID" := COOKIE_PHPSESSID p]> ∅))).

(** ** Parsing utilities: the extraction of one detail page *)

Module Selectors.
Import Soup.

(** ["article[itemtype='http://schema.org/Book']"] *)
Definition book : Selector := [tag_attr "article" "itemtype" "http://schema.org/Book"].
(** ["h1.title"] *)
Definition h1_title : Selector := [tag_class "h1" ["title"]].
(** ["span.subtitle"] *)
Definition span_subtitle : Selector := [tag_class "span" ["subtitle"]].
(** ["[itemprop='description']"] *)
Definition description : Selector := [attr_ "itemprop" "description"].
(** [".poster figure.cover"] *)
Definition cover : Selector := [class_ "poster"; tag_class "figure" ["cover"]].
(** ["[itemprop='dateCreated']"] *)
Definition dateCreated : Selector := [attr_ "itemprop" "dateCreated"].
(** ["[itemprop='locationCreated']"] *)
Definition locationCreated : Selector := [attr_ "itemprop" "locationCreated"].
(** ["span.publishers_list span a"] *)
Definition publishers : Selector :=
  [tag_class "span" ["publishers_list"]; tag_ "span"; tag_ "a"].
(** ["#mc-fs-genre a"] *)
Definition genre : Selector := [id_ "mc-fs-genre"; tag_ "a"].
(** ["[itemprop='keywords'] a"] *)
Definition keywords : Selector := [attr_ "itemprop" "keywords"; tag_ "a"].
(** ["[itemprop='timeRequired']"] *)
Definition timeRequired : Selector := [attr_ "itemprop" "timeRequired"].
(** ["#dle-content article.block.story.shortstory.mod-poster"] *)
Definition articles : Selector :=
  [id_ "dle-content"; tag_class "article" ["block"; "story"; "shortstory"; "mod-poster"]].
(** ["h2.title a"] *)
Definition h2_title_a : Selector := [tag_class "h2" ["title"]; tag_ "a"].
End Selectors.

(** [h1.contents[0].strip()].  An empty heading raises [IndexError].
    When the first child is a tag, [.strip] is bs4's attribute lookup
    [find("strip")]: without such a descendant it is [None] and the
    call raises [TypeError]; with one, calling the tag gives a
    [ResultSet]. *)
Definition first_content_strip (h1 : Soup.Element) : Result TitleValue :=
  match Soup.contents h1 with
  | [] => Raise IndexError
  | Soup.NavigableString s :: _ | Soup.ContainerString _ s :: _ | Soup.Comment s :: _ =>
      Ok (TitleStr (Text.strip s))
  | Soup.Tag n a cs :: _ =>
      match Soup.find (Soup.mkElement (Soup.header h1 :: Soup.parents h1) n a cs) "strip" with
      | Some _ => Ok TitleResultSet
      | None => Raise TypeError
      end
  end.

(** [x.get_text(separator=sep, strip=True) if x else None]; a tag is
    always truthy. *)
Definition text_if_found (sep : string) (x : option Soup.Element) : option string :=
  match x with
  | Some el => Some (Soup.get_text sep el)
  | None => None
  end.

(** Lines 90-95. *)
Definition parse_duration (duration_meta : option Soup.Element) : Result (option Z) :=
  match duration_meta with
  | Some meta =>
      match Soup.get meta "content" with
      | Some content =>
          if Text.nonempty content
          then match Re.match_hours content with
               | Some hours => n ← Text.int hours; Ok (Some (n * 3600)%Z)
               | None => Ok None
               end
          else Ok None
      | None => Ok None
      end
  | None => Ok None
  end.

(** Lines 65-108 of [fetch_and_parse_book]: from the parsed page to
    the record. *)
Definition parse_book (soup : Soup.Element) : Result BookMetadata :=
  let block := Soup.select_one soup Selectors.book in

  b ← deref block;
  h1 ← deref (Soup.select_one b Selectors.h1_title);
  title ← first_content_strip h1;
  let subtitle := text_if_found "" (Soup.select_one b Selectors.span_subtitle) in

  let description :=
    text_if_found (String Text.newline "") (Soup.select_one b Selectors.description) in

  cover_style ← subscript (Soup.select_one b Selectors.cover) "style";
  let cover := Re.search_url cover_style in

  let publishedYear := text_if_found "" (Soup.select_one b Selectors.dateCreated) in

  let language := text_if_found "" (Soup.select_one b Selectors.locationCreated) in

  let publisher_tags := Soup.select b Selectors.publishers in
  let publisher :=
    match publisher_tags with
    | [] => None
    | _ :: _ => Some (Text.join ", " (map (Soup.get_text "") publisher_tags))
    end in

  let genres := map (Soup.get_text "") (Soup.select b Selectors.genre) in
  let tags := map (Soup.get_text "") (Soup.select b Selectors.keywords) in

  duration ← parse_duration (Soup.select_one b Selectors.timeRequired);

  new_BookMetadata title subtitle description cover publishedYear language publisher
    genres tags duration.

(** ** The network *)

Inductive Request : Type :=
| POST (url : string) (data : list (string * string))
       (cookies : gmap string (option string)) (headers : list (string * string))
| GET (url : string) (cookies : gmap string (option string)).

Record Response : Type := mkResponse {
  status_code : Z;
  text : string
}.

(** A coroutine of the module: it runs from the requests issued so far
    to a result and the requests issued by the end.  Awaits happen one
    after the other, so a coroutine is sequential code over this log. *)
Definition IO (A : Type) : Type := list Request → Result A * list Request.

#[global] Instance io_ret : MRet IO := fun A a log => (Ok a, log).
#[global] Instance io_bind : MBind IO := fun A B f m log =>
  match m log with
  | (Ok a, log') => f a log'
  | (Raise e, log') => (Raise e, log')
  end.

Definition lift {A} (r : Result A) : IO A := fun log => (r, log).

Definition raise {A} (e : exn) : IO A := lift (Raise e).

(** [try: body / except Exception: handler] *)
Definition try_except {A} (body : IO A) (handler : IO A) : IO A := fun log =>
  match body log with
  | (Ok a, log') => (Ok a, log')
  | (Raise _, log') => handler log'
  end.

Section Coroutines.

(** The two collaborators the module is given: the HTML parser
    behind [BeautifulSoup(markup, "html.parser")], which gives the
    nodes of the tree or [None] for markup it rejects, and the remote
    site as the HTTP client reaches it.  The site's answer may depend
    on the requests made before; [None] is a request the client
    could not complete (no connection, a timeout). *)
Variable html_parser : string → option (list Soup.PageElement).
Variable remote : list Request → Request → option Response.

(** [BeautifulSoup(markup, "html.parser")]: the tree, or
    [ParserRejectedMarkup]. *)
Definition BeautifulSoup (markup : string) : Result Soup.Element :=
  match html_parser markup with
  | Some nodes => Ok (Soup.document nodes)
  | None => Raise ParserRejectedMarkup
  end.

(** [await client.post(...)] and [await client.get(...)] *)
Definition send (req : Request) : IO Response := fun log =>
  (match remote log req with
   | Some response => Ok response
   | None => Raise TransportError
   end,
   (log ++ [req])%list).

Definition fetch_and_parse_book (url : string) (cookies : gmap string (option string))
    : IO BookMetadata :=
  response ← send (GET url cookies);
  if bool_decide (status_code response ≠ 200%Z)
  then raise (HTTPException 500 ("Failed to fetch book page: " +:+ url))
  else
    soup ← lift (BeautifulSoup (text response));
    lift (parse_book soup).

(** The comprehension of line 133: the articles with a title anchor,
    each giving the anchor's [href]. *)
Fixpoint title_links (articles : list Soup.Element) : Result (list string) :=
  match articles with
  | [] => Ok []
  | a :: rest =>
      match Soup.select_one a Selectors.h2_title_a with
      | Some anchor =>
          href ← subscript (Some anchor) "href";
          links ← title_links rest;
          Ok (href :: links)
      | None => title_links rest
      end
  end.

(** The loop of lines 136-141 over the links still to visit, with
    the list [results] built so far. *)
Fixpoint for_links (links : list string) (cookies : gmap string (option string))
    (results : list BookMetadata) : IO (list BookMetadata) :=
  match links with
  | [] => mret results
  | link :: rest =>
      results' ← try_except
                    (book ← fetch_and_parse_book link cookies;
                     mret (results ++ [book])%list)
                    (mret results);
      for_links rest cookies results'
  end.

Definition search_data (query : string) : list (string * string) :=
  [("story", query); ("do", "search"); ("subaction", "search")].

Definition search_headers : list (string * string) :=
  [("Content-Type", "application/x-www-form-urlencoded");
   ("Accept", "text/html,application/xhtml+xml,application/xml;q=0.9,image/avif,image/webp,*/*;q=0.8");
   ("Origin", "https://ranobes.com");
   ("Referer", "https://ranobes.com/");
   ("User-Agent", "Mozilla/5.0 (Windows NT 10.0; Win64; x64) AppleWebKit/537.36 (KHTML, like Gecko) Chrome/136.0.0.0 Safari/537.36")].

(** The listing request of [perform_search]. *)
Definition search_request (query : string) (cookies : gmap string (option string)) : Request :=
  POST "https://ranobes.com/index.php" (search_data query) cookies search_headers.

Definition perform_search (query : string) (cookies : gmap string (option string))
    : IO (list BookMetadata) :=
  response ← send (search_request query cookies);
  if bool_decide (status_code response ≠ 200%Z)
  then raise (HTTPException 500 "Failed to search ranobes.com")
  else
    soup ← lift (BeautifulSoup (text response));
    let articles := Soup.select soup Selectors.articles in
    links ← lift (title_links articles);
    for_links links cookies [].

(** The payload [{"matches": books}]. *)
Record SearchResult : Type := { matches : list BookMetadata }.

(** The endpoint [GET /search]. *)
Definition search (p : Process) (query : string) : IO SearchResult :=
  cookies ← lift (get_auth_cookies p);
  books ← perform_search query cookies;
  mret {| matches := books |}.

End Coroutines.

(** ** A small site to run the module on *)

Module Demo.
Import Soup.

Definition elt (n : string) (a : list (string * string)) (cs : list PageElement)
    : PageElement :=
  Tag n (list_to_map a) cs.

Definition txt (s : string) : PageElement := NavigableString s.

(** A detail page: the book container around the given children,
    [<html><body><article itemtype='http://schema.org/Book'>...]. *)
Definition book_page (cs : list PageElement) : list PageElement :=
  [ elt "html" []
      [ elt "body" []
          [ elt "article" [("itemtype", "http://schema.org/Book")] cs ] ] ].

(** [<h1 class='title'>s</h1>] *)
Definition heading (s : string) : PageElement :=
  elt "h1" [("class", "title")] [txt s].

(** [<div class='r-fullstory-poster poster'><figure class='cover'
    style='...'></figure></div>] *)
Definition poster (style : string) : PageElement :=
  elt "div" [("class", "r-fullstory-poster poster")]
    [ elt "figure" [("class", "cover"); ("style", style)] [] ].

(** [<a href='href'>s</a>] *)
Definition anchor (href s : string) : PageElement :=
  elt "a" [("href", href)] [txt s].

Definition full_markup : string :=
  "<html><body><article itemtype='http://schema.org/Book'>"
  +:+ "<h1 class='title'>  Book One </h1>"
  +:+ "<span class='subtitle'>A Tale</span>"
  +:+ "<div class='r-fullstory-poster poster'>"
  +:+ "<figure class='cover' style='background-image: url(&#39;x.jpg&#39;);'></figure></div>"
  +:+ "<div itemprop='description'><p> First. </p><p>Second.</p></div>"
  +:+ "<span itemprop='dateCreated'>2021</span>"
  +:+ "<span itemprop='locationCreated'>English</span>"
  +:+ "<span class='publishers_list'><span><a href='/p/acme'>Acme</a></span>"
  +:+ "<span><a href='/p/beta'>Beta</a></span></span>"
  +:+ "<div id='mc-fs-genre'><a href='/g/drama'>Drama</a>, <a href='/g/action'>Action</a></div>"
  +:+ "<div itemprop='keywords'><a href='/t/magic'>magic</a></div>"
  +:+ "<meta itemprop='timeRequired' content='PT5H30M'>"
  +:+ "</article></body></html>".

(** The tree of [full_markup]. *)
Definition full_page : list PageElement :=
  book_page
    [ heading "  Book One ";
      elt "span" [("class", "subtitle")] [txt "A Tale"];
      poster "background-image: url('x.jpg');";
      elt "div" [("itemprop", "description")]
        [ elt "p" [] [txt " First. "]; elt "p" [] [txt "Second."] ];
      elt "span" [("itemprop", "dateCreated")] [txt "2021"];
      elt "span" [("itemprop", "locationCreated")] [txt "English"];
      elt "span" [("class", "publishers_list")]
        [ elt "span" [] [anchor "/p/acme" "Acme"]; elt "span" [] [anchor "/p/beta" "Beta"] ];
      elt "div" [("id", "mc-fs-genre")]
        [anchor "/g/drama" "Drama"; txt ", "; anchor "/g/action" "Action"];
      elt "div" [("itemprop", "keywords")] [anchor "/t/magic" "magic"];
      elt "meta" [("itemprop", "timeRequired"); ("content", "PT5H30M")] [] ].

Definition styled_markup (t style : string) : string :=
  "<html><body><article itemtype='http://schema.org/Book'>"
  +:+ "<h1 class='title'>" +:+ t +:+ "</h1>"
  +:+ "<div class='r-fullstory-poster poster'>"
  +:+ "<figure class='cover' style='" +:+ style +:+ "'></figure></div>"
  +:+ "</article></body></html>".

(** The tree of [styled_markup t style]: container, title and cover,
    nothing else. *)
Definition styled_page (t style : string) : list PageElement :=
  book_page [ heading t; poster style ].

(** A cover without [url(...)]. *)
Definition bare_page (t : string) : list PageElement := styled_page t "color: red".

(** [...<article itemtype='http://schema.org/Book'><h1
    class='title'>Book</h1></article>...]: no cover element. *)
Definition no_cover_page : list PageElement := book_page [ heading "Book" ].

(** The cover element without a [style] attribute. *)
Definition no_style_page : list PageElement :=
  book_page [ heading "Book";
              elt "div" [("class", "poster")] [ elt "figure" [("class", "cover")] [] ] ].

(** The container without the [h1.title] heading. *)
Definition no_title_page : list PageElement := book_page [ poster "url(x)" ].

(** Heading and cover, but no book container around them. *)
Definition no_container_page : list PageElement :=
  [ elt "html" [] [ elt "body" [] [ heading "Book"; poster "url(x)" ] ] ].

(** A small tree to try the selectors on. *)
Definition small_doc : Element :=
  document
    [ elt "div" [("class", "a  b")]
        [ elt "span" [] [ anchor "u1" " x " ];
          txt "t";
          elt "a" [("href", "u2")] [txt "y"; Comment "c"; txt " "] ] ].

Definition link_one : string := "https://ranobes.com/one.html".
Definition link_two : string := "https://ranobes.com/two.html".
Definition link_three : string := "https://ranobes.com/three.html".

Definition result_markup (link t : string) : string :=
  "<article class='block story shortstory mod-poster'><h2 class='title'>"
  +:+ "<a href='" +:+ link +:+ "'>" +:+ t +:+ "</a></h2></article>".

Definition listing_markup : string :=
  "<div id='dle-content'>"
  +:+ result_markup link_one "Book One"
  +:+ result_markup link_two "Book Two"
  +:+ result_markup link_three "Book Three"
  +:+ "</div>".

(** The tree of [result_markup link t]. *)
Definition result_article (link t : string) : PageElement :=
  elt "article" [("class", "block story shortstory mod-poster")]
    [ elt "h2" [("class", "title")] [ anchor link t ] ].

(** The tree of [listing_markup]. *)
Definition listing_page : list PageElement :=
  [ elt "div" [("id", "dle-content")]
      [ result_article link_one "Book One";
        result_article link_two "Book Two";
        result_article link_three "Book Three" ] ].

(** The parser on the pages the demo site serves. *)
Definition parser (markup : string) : option (list PageElement) :=
  if bool_decide (markup = listing_markup) then Some listing_page
  else if bool_decide (markup = full_markup) then Some full_page
  else if bool_decide (markup = styled_markup "Book Two" "color: red")
       then Some (bare_page "Book Two")
  else if bool_decide (markup = styled_markup "Book Three" "color: red")
       then Some (bare_page "Book Three")
  else Some [txt markup].

(** A site: the answer to the listing request and to each link. *)
Definition site (listing : option Response) (pages : list (string * Response))
    (log : list Request) (req : Request) : option Response :=
  match req with
  | POST _ _ _ _ => listing
  | GET url _ => list_to_map (M := gmap string Response) pages !! url
  end.

(** The site with the second link answering 404. *)
Definition site_404 : list Request → Request → option Response :=
  site (Some (mkResponse 200 listing_markup))
    [ (link_one, mkResponse 200 full_markup);
      (link_two, mkResponse 404 "Not Found");
      (link_three, mkResponse 200 (styled_markup "Book Three" "color: red")) ].

(** The site refusing the listing request. *)
Definition site_down : list Request → Request → option Response :=
  site (Some (mkResponse 503 "Service Unavailable"))
    [ (link_one, mkResponse 200 full_markup) ].

Definition some_cookies : gmap string (option string) :=
  <["dle_user_id" := Some "1"]>
    (<["dle_password" := Some "p"]> (<["PHPSESSID" := Some "s"]> ∅)).

Definition book_one : BookMetadata :=
  {| title := "Book One"; subtitle := Some "A Tale"; author := None; narrator := None;
     publisher := Some "Acme, Beta"; publishedYear := Some "2021";
     description := Some ("First." +:+ String Text.newline "" +:+ "Second.");
     cover := Some "'x.jpg'"; isbn := None; asin := None;
     genres := Some ["Drama"; "Action"]; tags := Some ["magic"]; series := Some [];
     language := Some "English"; duration := Some 18000%Z |}.

Definition bare_book (t : string) : BookMetadata :=
  {| title := t; subtitle := None; author := None; narrator := None;
     publisher := None; publishedYear := None; description := None;
     cover := None; isbn := None; asin := None;
     genres := Some []; tags := Some []; series := Some [];
     language := None; duration := None |}.

End Demo.

(** ** Vocabulary of the statements *)

(** A token that is not set, or set to the empty string. *)
Definition absent_or_empty (o : option string) : Prop := o = None ∨ o = Some "".

(** The exception [get_auth_cookies] raises. *)
Definition unauthenticated : exn :=
  HTTPException 401 "Missing required authentication environment variables".

(** The value of a result that is not an exception. *)
Definition record_of {A} (r : Result A) : option A :=
  match r with
  | Ok a => Some a
  | Raise _ => None
  end.

(** The detail requests for a list of links. *)
Definition visits (cookies : gmap string (option string)) (links : list string)
    : list Request :=
  map (fun link => GET link cookies) links.

(** The three secrets, all present and non-empty. *)
Definition secrets_env : gmap string string :=
  list_to_map [("DLE_USER_ID", "1"); ("DLE_PASSWORD", "p"); ("PHPSESSID", "s")].

(** The publisher as lines 84-85 compute it from the block. *)
Definition publisher_of (b : Soup.Element) : option string :=
  match Soup.select b Selectors.publishers with
  | [] => None
  | anchors => Some (Text.join ", " (map (Soup.get_text "") anchors))
  end.

(** Strings made of whitespace only. *)
(** The record lines 97-108 build from the container, the title, the
    style of the cover and the duration. *)
Definition built_record (b : Soup.Element) (t style : string) (d : option Z)
    : BookMetadata :=
  {| title := t;
     subtitle := text_if_found "" (Soup.select_one b Selectors.span_subtitle);
     author := None; narrator := None;
     publisher := publisher_of b;
     publishedYear := text_if_found "" (Soup.select_one b Selectors.dateCreated);
     description :=
       text_if_found (String Text.newline "") (Soup.select_one b Selectors.description);
     cover := Re.search_url style;
     isbn := None; asin := None;
     genres := Some (map (Soup.get_text "") (Soup.select b Selectors.genre));
     tags := Some (map (Soup.get_text "") (Soup.select b Selectors.keywords));
     series := Some [];
     language := text_if_found "" (Soup.select_one b Selectors.locationCreated);
     duration := d |}.

Fixpoint all_space (s : string) : bool :=
  match s with
  | EmptyString => true
  | String c r => Text.isspace c && all_space r
  end.

(** [c in s] *)
Fixpoint has_char (c : ascii) (s : string) : bool :=
  match s with
  | EmptyString => false
  | String c' r => bool_decide (c' = c) || has_char c r
  end.

(** Strings made of ASCII digits only. *)
Fixpoint all_digits (s : string) : bool :=
  match s with
  | EmptyString => true
  | String c r => Text.isdigit c && all_digits r
  end.

(** An occurrence of [url(...)] the pattern can match: ["url("] after
    [pre], then [tok] free of [")"] and of line feeds, then [")"]. *)
Definition url_occurrence (style pre tok post : string) : Prop :=
  style = pre +:+ "url(" +:+ tok +:+ ")" +:+ post
  ∧ has_char ")" tok = false
  ∧ has_char Text.newline tok = false.

(** The leftmost such occurrence. *)
Definition first_url_occurrence (style pre tok post : string) : Prop :=
  url_occurrence style pre tok post
  ∧ ∀ pre' tok' post', url_occurrence style pre' tok' post' →
                       (String.length pre ≤ String.length pre')%nat.

(** A style whose [url(...)] runs over two lines. *)
Definition two_line_style : string := "url(a" +:+ String Text.newline "b)".

(** ** Vocabulary of the further properties *)

(** The cookies a request carries. *)
Definition cookies_of (req : Request) : gmap string (option string) :=
  match req with
  | POST _ _ cookies _ => cookies
  | GET _ cookies => cookies
  end.

(** The [href] of an article's title anchor, for an article that has
    the anchor and the attribute. *)
Definition title_href (a : Soup.Element) : option string :=
  anchor ← Soup.select_one a Selectors.h2_title_a; Soup.get anchor "href".

(** An article whose title anchor carries no [href]. *)
Definition anchor_without_href (a : Soup.Element) : Prop :=
  ∃ anchor, Soup.select_one a Selectors.h2_title_a = Some anchor
            ∧ Soup.get anchor "href" = None.

(** A site whose answer to a request does not depend on the requests
    made before. *)
Definition stateless (remote : list Request → Request → option Response) : Prop :=
  ∀ log log' req, remote log req = remote log' req.

(** Text without whitespace at either end: neither its first nor its
    last character is a whitespace character. *)
Definition bare_ends (s : string) : Prop :=
  (∀ c r, s = String c r → Text.isspace c = false)
  ∧ (∀ r c, s = r +:+ String c "" → Text.isspace c = false).

(** The hour count of the container's [timeRequired] element, if it
    has one, is short enough for [int]: whenever the [content]
    attribute reads ["PT"], digits, ["H"], there are at most
    [int_max_str_digits] digits. *)
Definition hours_within_limit (b : Soup.Element) : Prop :=
  ∀ meta ds rest,
    Soup.select_one b Selectors.timeRequired = Some meta →
    Soup.get meta "content" = Some ("PT" +:+ ds +:+ "H" +:+ rest) →
    all_digits ds = true →
    (N.of_nat (String.length ds) ≤ Text.int_max_str_digits)%N.

(** [s] is the texts [parts] joined with the separator [sep], as the
    spec words it: nothing for no text, the text itself for one, and
    otherwise the first text, the separator, and the rest joined. *)
Inductive Joined (sep : string) : list string → string → Prop :=
| Joined_none : Joined sep [] ""
| Joined_one (t : string) : Joined sep [t] t
| Joined_more (t u : string) (parts : list string) (s : string) :
    Joined sep (u :: parts) s → Joined sep (t :: u :: parts) (t +:+ sep +:+ s).

(** Non-empty text that begins with a character other than whitespace
    and that [rstrip] leaves alone. *)
Definition edged (s : string) : Prop :=
  ∃ c r, s = String c r ∧ Text.isspace c = false ∧ Text.rstrip s = s.

(** ** Further pages to run the module on *)

Module Cases.
Import Soup.

(** [<h1 class='title'></h1>]: a heading without children. *)
Definition empty_heading_page : list PageElement :=
  Demo.book_page [ Demo.elt "h1" [("class", "title")] []; Demo.poster "url(x)" ].

(** [<h1 class='title'><b>Book</b></h1>]: a heading whose first child
    is a tag. *)
Definition tag_heading_page : list PageElement :=
  Demo.book_page
    [ Demo.elt "h1" [("class", "title")] [ Demo.elt "b" [] [Demo.txt "Book"] ];
      Demo.poster "url(x)" ].

(** [<h1 class='title'><b><strip></strip></b></h1>]: the first child
    has a descendant tag named [strip]. *)
Definition strip_heading_page : list PageElement :=
  Demo.book_page
    [ Demo.elt "h1" [("class", "title")] [ Demo.elt "b" [] [ Demo.elt "strip" [] [] ] ];
      Demo.poster "url(x)" ].

(** One publisher anchor, without text. *)
Definition blank_publisher_page : list PageElement :=
  Demo.book_page
    [ Demo.heading "Book"; Demo.poster "url(x)";
      Demo.elt "span" [("class", "publishers_list")]
        [ Demo.elt "span" [] [ Demo.anchor "/p/none" "" ] ] ].

(** Container, title, cover and a [timeRequired] element:
    [<meta itemprop='timeRequired' content='...'>]. *)
Definition hours_page (content : string) : list PageElement :=
  Demo.book_page
    [ Demo.heading "Book"; Demo.poster "url(x)";
      Demo.elt "meta" [("itemprop", "timeRequired"); ("content", content)] [] ].

(** Container, title, cover and a [timeRequired] element without a
    [content] attribute. *)
Definition timeless_page : list PageElement :=
  Demo.book_page
    [ Demo.heading "Book"; Demo.poster "url(x)";
      Demo.elt "meta" [("itemprop", "timeRequired")] [] ].

(** A result article without a title anchor. *)
Definition untitled_article : PageElement :=
  Demo.elt "article" [("class", "block story shortstory mod-poster")]
    [ Demo.elt "div" [("class", "cont-in")] [Demo.txt "No title here"] ].

(** A result article whose title anchor has no [href]. *)
Definition unlinked_article : PageElement :=
  Demo.elt "article" [("class", "block story shortstory mod-poster")]
    [ Demo.elt "h2" [("class", "title")] [ Demo.elt "a" [] [Demo.txt "Book Two"] ] ].

Definition skipping_markup : string :=
  "<div id='dle-content'>"
  +:+ Demo.result_markup Demo.link_one "Book One"
  +:+ "<article class='block story shortstory mod-poster'>"
  +:+ "<div class='cont-in'>No title here</div></article>"
  +:+ Demo.result_markup Demo.link_three "Book Three"
  +:+ "</div>".

(** The tree of [skipping_markup]: the second article has no title
    anchor. *)
Definition skipping_listing : list PageElement :=
  [ Demo.elt "div" [("id", "dle-content")]
      [ Demo.result_article Demo.link_one "Book One";
        untitled_article;
        Demo.result_article Demo.link_three "Book Three" ] ].

Definition unlinked_markup : string :=
  "<div id='dle-content'>"
  +:+ Demo.result_markup Demo.link_one "Book One"
  +:+ "<article class='block story shortstory mod-poster'>"
  +:+ "<h2 class='title'><a>Book Two</a></h2></article>"
  +:+ "</div>".

(** The tree of [unlinked_markup]: the second title anchor has no
    [href]. *)
Definition unlinked_listing : list PageElement :=
  [ Demo.elt "div" [("id", "dle-content")]
      [ Demo.result_article Demo.link_one "Book One"; unlinked_article ] ].

(** The parser on the pages of the sites below. *)
Definition parser (markup : string) : option (list PageElement) :=
  if bool_decide (markup = skipping_markup) then Some skipping_listing
  else if bool_decide (markup = unlinked_markup) then Some unlinked_listing
  else Demo.parser markup.

Definition pages : list (string * Response) :=
  [ (Demo.link_one, mkResponse 200 Demo.full_markup);
    (Demo.link_three, mkResponse 200 (Demo.styled_markup "Book Three" "color: red")) ].

(** A site whose listing has an article without a title anchor. *)
Definition site_skipping : list Request → Request → option Response :=
  Demo.site (Some (mkResponse 200 skipping_markup)) pages.

(** A site whose listing has a title anchor without [href]. *)
Definition site_unlinked : list Request → Request → option Response :=
  Demo.site (Some (mkResponse 200 unlinked_markup)) pages.

(** A process imported with the three secrets set. *)
Definition configured : Process := import_module secrets_env.

End Cases.

(** * Properties *)

(** ** The model on concrete inputs *)

Example strip_ex : Text.strip "  a b  " = "a b".
Proof. reflexivity. Qed.
Example search_ex : Re.search_url "background: rgb(0) url(x.jpg);" = Some "x.jpg".
Proof. reflexivity. Qed.
Example hours_ex : Re.match_hours "PT12H30M" = Some "12".
Proof. reflexivity. Qed.
Example tokens_ex : Text.tokens " block  story mod-poster" = ["block"; "story"; "mod-poster"].
Proof. reflexivity. Qed.

Example select_ex :
  map (Soup.get_text "") (Soup.select Demo.small_doc [Soup.class_ "b"; Soup.tag_ "a"])
  = ["x"; "y"].
Proof. vm_compute. reflexivity. Qed.

Example select_nested_ex :
  map (Soup.get_text "")
      (Soup.select Demo.small_doc
         [Soup.tag_class "div" ["a"; "b"]; Soup.tag_ "span"; Soup.tag_ "a"])
  = ["x"].
Proof. vm_compute. reflexivity. Qed.

Example get_text_ex : Soup.get_text "|" Demo.small_doc = "x|t|y".
Proof. vm_compute. reflexivity. Qed.

Example full_page_parsed : parse_book (Soup.document Demo.full_page) = Ok Demo.book_one.
Proof. vm_compute. reflexivity. Qed.

Example search_404 :
  (perform_search Demo.parser Demo.site_404 "q" Demo.some_cookies []).1
  = Ok [Demo.book_one; Demo.bare_book "Book Three"].
Proof. vm_compute. reflexivity. Qed.

(** ** Facts about the two patterns *)

#[local] Arguments String.append !_ _ / : simpl nomatch.

Lemma after_prefix_spec (p s r : string) : Re.after_prefix p s = Some r ↔ s = p +:+ r.
Proof.
  revert s. induction p as [|a p IH]; intros s; simpl.
  - split; [intros [= ->] | intros ->]; reflexivity.
  - destruct s as [|b s]; [split; discriminate|].
    case_bool_decide as Hab.
    + subst b. rewrite IH. split; [intros -> | intros [= ->]]; reflexivity.
    + split; [discriminate|]. intros [= Hba _]. congruence.
Qed.

Lemma after_prefix_app (p r : string) : Re.after_prefix p (p +:+ r) = Some r.
Proof. apply after_prefix_spec. reflexivity. Qed.

(** The lazy group is the text up to the first [")"], provided no
    line feed comes before it. *)
Lemma lazy_to_paren_spec (s tok : string) :
  Re.lazy_to_paren s = Some tok
  ↔ ∃ post, s = tok +:+ ")" +:+ post
            ∧ has_char ")" tok = false ∧ has_char Text.newline tok = false.
Proof.
  revert tok. induction s as [|c s IH]; intros tok; simpl.
  - split; [discriminate|]. intros (post & H & _). destruct tok; discriminate.
  - case_bool_decide as Hparen.
    + subst c. split.
      * intros [= <-]. exists s. auto.
      * intros (post & H & Hp & _). destruct tok as [|c' tok]; [reflexivity|].
        simpl in H, Hp. injection H as <- _.
        first [discriminate
              | rewrite bool_decide_eq_true_2 in Hp by reflexivity; discriminate].
    + case_bool_decide as Hnl.
      * subst c. split; [discriminate|].
        intros (post & H & _ & Hn). destruct tok as [|c' tok]; simpl in H.
        -- injection H as H _. discriminate.
        -- injection H as <- _. simpl in Hn.
           first [discriminate
                 | rewrite bool_decide_eq_true_2 in Hn by reflexivity; discriminate].
      * destruct (Re.lazy_to_paren s) as [tok0|] eqn:Hlazy; simpl.
        -- split.
           ++ intros [= <-]. destruct (proj1 (IH tok0) eq_refl) as (post & -> & Hp & Hn).
              exists post. simpl.
              rewrite !bool_decide_eq_false_2 by assumption. auto.
           ++ intros (post & H & Hp & Hn). destruct tok as [|c' tok]; simpl in H.
              ** injection H as -> _. congruence.
              ** injection H as <- ->. simpl in Hp, Hn.
                 apply orb_false_iff in Hp as [_ Hp]. apply orb_false_iff in Hn as [_ Hn].
                 f_equal. f_equal. symmetry.
                 assert (Some tok0 = Some tok) as [= ->]; [|reflexivity].
                 apply IH. eauto.
        -- split; [discriminate|].
           intros (post & H & Hp & Hn). destruct tok as [|c' tok]; simpl in H.
           ++ injection H as -> _. congruence.
           ++ injection H as <- ->. simpl in Hp, Hn.
              apply orb_false_iff in Hp as [_ Hp]. apply orb_false_iff in Hn as [_ Hn].
              assert (None = Some tok) as [=]. apply IH. eauto.
Qed.

Lemma url_at_spec (s tok : string) :
  Re.url_at s = Some tok ↔ ∃ post, url_occurrence s "" tok post.
Proof.
  unfold Re.url_at, url_occurrence. split.
  - destruct (Re.after_prefix "url(" s) as [r|] eqn:Hr; simpl; [|discriminate].
    apply after_prefix_spec in Hr. subst s. intros Hl.
    apply lazy_to_paren_spec in Hl as (post & -> & Hp & Hn). exists post. auto.
  - intros (post & -> & Hp & Hn).
    change ("" +:+ "url(" +:+ tok +:+ ")" +:+ post) with ("url(" +:+ (tok +:+ ")" +:+ post)).
    rewrite after_prefix_app. simpl. apply lazy_to_paren_spec. eauto.
Qed.

(** [re.search] returns the token of the leftmost occurrence. *)
Lemma search_url_first (style pre tok post : string) :
  first_url_occurrence style pre tok post → Re.search_url style = Some tok.
Proof.
  revert style. induction pre as [|c pre IH]; intros style [Hocc Hfirst].
  - assert (Hat : Re.url_at style = Some tok) by (apply url_at_spec; eauto).
    destruct style; cbn [Re.search_url]; rewrite Hat; reflexivity.
  - destruct Hocc as (Hstyle & Hp & Hn). subst style.
    change (Re.search_url (String c (pre +:+ "url(" +:+ tok +:+ ")" +:+ post)) = Some tok).
    cbn [Re.search_url].
    destruct (Re.url_at _) as [tok'|] eqn:Hat.
    + apply url_at_spec in Hat as (post' & Hocc').
      specialize (Hfirst "" tok' post' Hocc'). simpl in Hfirst. lia.
    + apply IH. split; [repeat split; assumption|].
      intros pre' tok' post' (Hs' & Hp' & Hn').
      assert (Hle : (String.length (String c pre) ≤ String.length (String c pre'))%nat).
      { apply (Hfirst (String c pre') tok' post'). repeat split; try assumption.
        exact (f_equal (String c) Hs'). }
      simpl in Hle. lia.
Qed.

(** Without any occurrence [re.search] finds nothing. *)
Lemma search_url_none (style : string) :
  (∀ pre tok post, ¬ url_occurrence style pre tok post) → Re.search_url style = None.
Proof.
  induction style as [|c style IH]; intros Hnone.
  - reflexivity.
  - cbn [Re.search_url]. destruct (Re.url_at _) as [tok|] eqn:Hat.
    + apply url_at_spec in Hat as (post & Hocc). destruct (Hnone _ _ _ Hocc).
    + apply IH. intros pre tok post (Hs & Hp & Hn).
      apply (Hnone (String c pre) tok post). repeat split; try assumption.
      exact (f_equal (String c) Hs).
Qed.

(** *** The duration pattern *)

Lemma span_digits_app (ds rest : string) :
  all_digits ds = true →
  (∀ c r, rest = String c r → Text.isdigit c = false) →
  Re.span_digits (ds +:+ rest) = (ds, rest).
Proof.
  intros Hds Hrest. induction ds as [|d ds IH]; simpl in *.
  - destruct rest as [|c r]; [reflexivity|]. simpl.
    rewrite (Hrest c r eq_refl). reflexivity.
  - apply andb_true_iff in Hds as [Hd Hds]. rewrite Hd, (IH Hds). reflexivity.
Qed.

Lemma span_digits_inv (s ds rest : string) :
  Re.span_digits s = (ds, rest) →
  s = ds +:+ rest ∧ all_digits ds = true.
Proof.
  revert ds. induction s as [|c s IH]; intros ds; simpl.
  - intros [= <- <-]. auto.
  - destruct (Text.isdigit c) eqn:Hc.
    + destruct (Re.span_digits s) as [ds' rest'] eqn:Hspan.
      intros [= <- <-]. destruct (IH ds' eq_refl) as [-> Hds]. simpl.
      rewrite Hc, Hds. auto.
    + intros [= <- <-]. auto.
Qed.

(** The pattern matches exactly the strings that start with ["PT"], a
    non-empty run of digits and ["H"]; the group is that run. *)
Lemma match_hours_spec (s ds : string) :
  Re.match_hours s = Some ds
  ↔ ds ≠ "" ∧ all_digits ds = true ∧ ∃ rest, s = "PT" +:+ ds +:+ "H" +:+ rest.
Proof.
  unfold Re.match_hours. split.
  - destruct (Re.after_prefix "PT" s) as [r|] eqn:Hr; cbn [mbind option_bind];
      [|discriminate].
    apply after_prefix_spec in Hr. subst s.
    destruct (Re.span_digits r) as [ds' rest'] eqn:Hspan.
    apply span_digits_inv in Hspan as [-> Hds].
    destruct ds' as [|d ds']; cbn [Text.nonempty]; [discriminate|].
    destruct (Re.after_prefix "H" rest') as [rest|] eqn:Hh; cbn [mbind option_bind];
      [|discriminate].
    apply after_prefix_spec in Hh. subst rest'. intros [= <-].
    split; [discriminate|]. split; [exact Hds|]. exists rest. reflexivity.
  - intros (Hne & Hds & rest & ->).
    change ("PT" +:+ ds +:+ "H" +:+ rest) with ("PT" +:+ (ds +:+ "H" +:+ rest)).
    rewrite after_prefix_app. simpl.
    change ("H" +:+ rest) with (String "H" rest).
    rewrite span_digits_app; [|exact Hds|intros c r Heq; injection Heq as <- _; reflexivity].
    destruct ds as [|d ds]; [congruence|]. reflexivity.
Qed.

(** [decimal] reads a digit string as a decimal number. *)
Lemma int_acc_eq (s : string) : ∀ acc,
  Text.int_acc acc s
  = (acc * 10 ^ Z.of_nat (String.length s) + Text.int_acc 0 s)%Z.
Proof.
  induction s as [|c s IH]; intros acc; cbn [Text.int_acc String.length].
  - rewrite Z.pow_0_r. lia.
  - rewrite (IH (10 * acc + Text.digit_value c)%Z), (IH (10 * 0 + Text.digit_value c)%Z).
    rewrite Nat2Z.inj_succ, Z.pow_succ_r by lia. ring.
Qed.

Lemma int_cons (c : ascii) (s : string) :
  Text.decimal (String c s)
  = (Text.digit_value c * 10 ^ Z.of_nat (String.length s) + Text.decimal s)%Z.
Proof.
  unfold Text.decimal. cbn [Text.int_acc]. rewrite int_acc_eq. f_equal.
Qed.

Lemma pretty_N_char_digit (d : N) :
  (d < 10)%N →
  Text.isdigit (pretty_N_char d) = true ∧ Text.digit_value (pretty_N_char d) = Z.of_N d.
Proof.
  intros Hd.
  assert (d = 0 ∨ d = 1 ∨ d = 2 ∨ d = 3 ∨ d = 4 ∨ d = 5 ∨ d = 6 ∨ d = 7 ∨ d = 8 ∨ d = 9)%N
    as Hcases by lia.
  repeat (destruct Hcases as [-> | Hcases]; [split; reflexivity|]).
  subst d. split; reflexivity.
Qed.

Lemma pretty_N_go_int (x : N) : ∀ s,
  all_digits s = true →
  all_digits (pretty_N_go x s) = true
  ∧ Text.decimal (pretty_N_go x s)
    = (Z.of_N x * 10 ^ Z.of_nat (String.length s) + Text.decimal s)%Z
  ∧ (s ≠ "" → pretty_N_go x s ≠ "").
Proof.
  induction (N.lt_wf_0 x) as [x _ IH]; intros s Hs.
  assert (x = 0 ∨ 0 < x)%N as [-> | Hpos] by lia.
  - rewrite pretty_N_go_0. split; [exact Hs|]. split; [|auto].
    change (Z.of_N 0) with 0%Z. rewrite Z.mul_0_l. reflexivity.
  - rewrite pretty_N_go_step by exact Hpos.
    destruct (pretty_N_char_digit (x `mod` 10)%N) as [Hdigit Hvalue].
    { apply N.mod_lt. lia. }
    destruct (IH (x `div` 10)%N) with (s := String (pretty_N_char (x `mod` 10)) s)
      as (Hall & Hint & Hne).
    { apply N.div_lt; lia. }
    { simpl. rewrite Hdigit. exact Hs. }
    split; [exact Hall|]. split.
    + rewrite Hint, int_cons, Hvalue. cbn [String.length].
      rewrite Nat2Z.inj_succ, Z.pow_succ_r by lia.
      rewrite (N.div_mod x 10) at 3 by lia.
      rewrite N2Z.inj_add, N2Z.inj_mul. change (Z.of_N 10) with 10%Z. ring.
    + intros _. apply Hne. discriminate.
Qed.

(** The decimal numeral of a natural number is a non-empty digit
    string that [decimal] reads back. *)
Lemma int_pretty (n : N) :
  pretty n ≠ "" ∧ all_digits (pretty n) = true ∧ Text.decimal (pretty n) = Z.of_N n.
Proof.
  unfold pretty, pretty_N. case_decide as Hn.
  - subst n. repeat split. discriminate.
  - destruct (pretty_N_go_int n "" eq_refl) as (Hall & Hint & _).
    split; [|split; [exact Hall|]].
    + assert (0 < n)%N as Hpos by lia.
      rewrite pretty_N_go_step by exact Hpos.
      apply (pretty_N_go_int (n `div` 10)%N (String (pretty_N_char (n `mod` 10)) "")).
      * assert (n `mod` 10 < 10)%N as Hlt by (apply N.mod_lt; lia).
        simpl. rewrite (proj1 (pretty_N_char_digit _ Hlt)). reflexivity.
      * discriminate.
    + rewrite Hint. change (Text.decimal "") with 0%Z. simpl. lia.
Qed.

(** [int] within and beyond the limit on the length of a numeral. *)
Lemma int_within (ds : string) :
  (N.of_nat (String.length ds) ≤ Text.int_max_str_digits)%N →
  Text.int ds = Ok (Text.decimal ds).
Proof.
  intros Hlen. unfold Text.int.
  destruct (N.ltb_spec Text.int_max_str_digits (N.of_nat (String.length ds)));
    [lia | reflexivity].
Qed.

Lemma int_beyond (ds : string) :
  (Text.int_max_str_digits < N.of_nat (String.length ds))%N →
  Text.int ds = Raise ValueError.
Proof.
  intros Hlen. unfold Text.int.
  destruct (N.ltb_spec Text.int_max_str_digits (N.of_nat (String.length ds)));
    [reflexivity | lia].
Qed.

(** Lines 90-95 on a content the pattern matches, and on one it does
    not. *)
Lemma parse_duration_match (meta : Soup.Element) (content ds : string) :
  Soup.get meta "content" = Some content →
  Re.match_hours content = Some ds →
  parse_duration (Some meta) = n ← Text.int ds; Ok (Some (n * 3600)%Z).
Proof.
  intros Hc Hm. unfold parse_duration. rewrite Hc, Hm.
  destruct content; [discriminate Hm | reflexivity].
Qed.

Lemma parse_duration_no_match (meta : Soup.Element) (content : string) :
  Soup.get meta "content" = Some content →
  Re.match_hours content = None →
  parse_duration (Some meta) = Ok None.
Proof.
  intros Hc Hm. unfold parse_duration. rewrite Hc, Hm.
  destruct (Text.nonempty content); reflexivity.
Qed.

(** With the hour count within the limit, lines 90-95 do not raise. *)
Lemma parse_duration_within (b : Soup.Element) :
  hours_within_limit b →
  ∃ d, parse_duration (Soup.select_one b Selectors.timeRequired) = Ok d.
Proof.
  intros Hlimit.
  destruct (Soup.select_one b Selectors.timeRequired) as [meta|] eqn:Hmeta; [|eexists; reflexivity].
  destruct (Soup.get meta "content") as [content|] eqn:Hc;
    [|unfold parse_duration; rewrite Hc; eexists; reflexivity].
  destruct (Re.match_hours content) as [ds|] eqn:Hm.
  - rewrite (parse_duration_match meta content ds Hc Hm).
    apply match_hours_spec in Hm as (_ & Hds & rest & ->).
    rewrite (int_within ds (Hlimit meta ds rest Hmeta Hc Hds)). eexists. reflexivity.
  - rewrite (parse_duration_no_match meta content Hc Hm). eexists. reflexivity.
Qed.

(** ** Unfolding the coroutines *)

Section Facts.
Variable html_parser : string → option (list Soup.PageElement).
Variable remote : list Request → Request → option Response.

#[local] Abbreviation fetch := (fetch_and_parse_book html_parser remote).
#[local] Abbreviation loop := (for_links html_parser remote).

(** A detail fetch issues exactly one request, whatever its outcome. *)
Lemma fetch_log url cookies log :
  (fetch url cookies log).2 = (log ++ [GET url cookies])%list.
Proof.
  unfold fetch_and_parse_book, mbind, io_bind, send, lift.
  destruct (remote log (GET url cookies)) as [r|]; simpl; [|reflexivity].
  case_bool_decide; [reflexivity|].
  destruct (BeautifulSoup html_parser (text r)); reflexivity.
Qed.

(** A response other than 200 makes the fetch raise. *)
Lemma fetch_bad_status url cookies log r :
  remote log (GET url cookies) = Some r →
  status_code r ≠ 200%Z →
  (fetch url cookies log).1
  = Raise (HTTPException 500 ("Failed to fetch book page: " +:+ url)).
Proof.
  intros Hr Hs. unfold fetch_and_parse_book, mbind, io_bind, send.
  rewrite Hr. simpl. rewrite bool_decide_eq_true_2 by exact Hs. reflexivity.
Qed.

(** A request the client could not complete makes the fetch raise. *)
Lemma fetch_transport url cookies log :
  remote log (GET url cookies) = None →
  (fetch url cookies log).1 = Raise TransportError.
Proof.
  intros Hr. unfold fetch_and_parse_book, mbind, io_bind, send.
  rewrite Hr. reflexivity.
Qed.

(** On a 200 response the fetch is the extraction of the parsed body,
    or the parser's refusal of the body. *)
Lemma fetch_200 url cookies log body :
  remote log (GET url cookies) = Some (mkResponse 200 body) →
  (fetch url cookies log).1
  = match BeautifulSoup html_parser body with
    | Ok soup => parse_book soup
    | Raise e => Raise e
    end.
Proof.
  intros Hr. unfold fetch_and_parse_book, mbind, io_bind, send, lift.
  rewrite Hr. simpl. destruct (BeautifulSoup html_parser body); reflexivity.
Qed.

(** One turn of the loop: the record is appended on success, the
    link is skipped on any exception. *)
Lemma loop_cons link rest cookies results log :
  loop (link :: rest) cookies results log
  = loop rest cookies
      (match (fetch link cookies log).1 with
       | Ok book => (results ++ [book])%list
       | Raise _ => results
       end)
      (log ++ [GET link cookies])%list.
Proof.
  pose proof (fetch_log link cookies log) as Hlog.
  simpl. unfold mbind at 1. unfold io_bind, try_except.
  unfold mbind at 1. unfold io_bind.
  destruct (fetch link cookies log) as [[book|e] log']; simpl in *; subst log'; reflexivity.
Qed.

End Facts.

(** ** The extraction on pages that lack a required fragment *)

Section Extraction.
Variable html_parser : string → option (list Soup.PageElement).
Variable remote : list Request → Request → option Response.

(** C3.  A page without the book container, or with the container but
    without the [h1.title] heading, makes the extraction raise (the
    lookup on [None] is an [AttributeError]; this is the spec's
    MalformedPage), so it never returns a record.  The failure stays
    with that page: when such a page is what a link serves, the loop of
    [perform_search] goes on to the remaining links with its results
    unchanged. *)
Theorem parse_book_malformed (soup : Soup.Element) :
  (Soup.select_one soup Selectors.book = None
   ∨ ∃ b, Soup.select_one soup Selectors.book = Some b
          ∧ Soup.select_one b Selectors.h1_title = None) →
  parse_book soup = Raise AttributeError
  ∧ ∀ link rest cookies results log body,
      remote log (GET link cookies) = Some (mkResponse 200 body) →
      BeautifulSoup html_parser body = Ok soup →
      for_links html_parser remote (link :: rest) cookies results log
      = for_links html_parser remote rest cookies results (log ++ [GET link cookies])%list.
Proof.
  intros Hmissing.
  assert (Hraise : parse_book soup = Raise AttributeError).
  { unfold parse_book.
    destruct Hmissing as [Hnone | (b & Hb & Hnone)].
    - rewrite Hnone. reflexivity.
    - rewrite Hb. simpl. rewrite Hnone. reflexivity. }
  split; [exact Hraise|].
  intros link rest cookies results log body Hremote Hsoup.
  rewrite loop_cons, (fetch_200 _ _ _ _ _ body Hremote), Hsoup, Hraise.
  reflexivity.
Qed.

(** C2.  With the container and the title in place, the cover lookup
    of line 74 is not guarded: a page without the
    [.poster figure.cover] element raises [TypeError], one whose cover
    element has no [style] attribute raises [KeyError], and only a
    style without a [url(...)] match gives a record with [cover]
    absent (on a page whose hour count [int] accepts). *)
Theorem cover_lookup_unguarded (soup b h1 : Soup.Element) (t : string) :
  Soup.select_one soup Selectors.book = Some b →
  Soup.select_one b Selectors.h1_title = Some h1 →
  first_content_strip h1 = Ok (TitleStr t) →
  (Soup.select_one b Selectors.cover = None → parse_book soup = Raise TypeError)
  ∧ (∀ fig, Soup.select_one b Selectors.cover = Some fig →
            Soup.get fig "style" = None →
            parse_book soup = Raise KeyError)
  ∧ (∀ fig style, Soup.select_one b Selectors.cover = Some fig →
                  Soup.get fig "style" = Some style →
                  Re.search_url style = None →
                  hours_within_limit b →
                  ∃ r, parse_book soup = Ok r ∧ cover r = None).
Proof.
  intros Hb Hh1 Ht. unfold parse_book. rewrite Hb. simpl. rewrite Hh1. simpl.
  rewrite Ht. simpl. split; [|split].
  - intros Hc. rewrite Hc. reflexivity.
  - intros fig Hc Hs. rewrite Hc. simpl. rewrite Hs. reflexivity.
  - intros fig style Hc Hs Hu Hlimit. rewrite Hc. simpl. rewrite Hs. simpl. rewrite Hu.
    destruct (parse_duration_within b Hlimit) as [d ->]. simpl.
    eexists. split; reflexivity.
Qed.

End Extraction.

Lemma parse_book_malformed_witness :
  parse_book (Soup.document Demo.no_container_page) = Raise AttributeError
  ∧ parse_book (Soup.document Demo.no_title_page) = Raise AttributeError.
Proof.
  split.
  - apply (parse_book_malformed Demo.parser Demo.site_404). left. vm_compute. reflexivity.
  - apply (parse_book_malformed Demo.parser Demo.site_404). right.
    eexists. split; reflexivity.
Defined.

Lemma cover_lookup_unguarded_witness :
  parse_book (Soup.document Demo.no_cover_page) = Raise TypeError
  ∧ parse_book (Soup.document Demo.no_style_page) = Raise KeyError.
Proof.
  split.
  - edestruct (cover_lookup_unguarded (Soup.document Demo.no_cover_page)) as (H & _ & _);
      [reflexivity | reflexivity | reflexivity | apply H; reflexivity].
  - edestruct (cover_lookup_unguarded (Soup.document Demo.no_style_page)) as (_ & H & _);
      [reflexivity | reflexivity | reflexivity | eapply H; reflexivity].
Defined.

(** ** Credentials *)

Lemma truthy_false (o : option string) : truthy o = false ↔ absent_or_empty o.
Proof.
  unfold absent_or_empty. destruct o as [[|c s]|]; simpl; split; intros H;
    try reflexivity; try discriminate; auto.
  destruct H as [H|H]; discriminate.
Qed.

Lemma all_false (a b c : option string) :
  all [a; b; c] = false ↔ absent_or_empty a ∨ absent_or_empty b ∨ absent_or_empty c.
Proof.
  rewrite <- !truthy_false. unfold all. simpl.
  destruct (truthy a), (truthy b), (truthy c); simpl; intuition congruence.
Qed.

Lemma get_auth_cookies_cases (p : Process) :
  (all [COOKIE_DLE_USER_ID p; COOKIE_DLE_PASSWORD p; COOKIE_PHPSESSID p] = false
   ∧ get_auth_cookies p = Raise unauthenticated)
  ∨ (all [COOKIE_DLE_USER_ID p; COOKIE_DLE_PASSWORD p; COOKIE_PHPSESSID p] = true
     ∧ ∃ cookies, get_auth_cookies p = Ok cookies).
Proof.
  unfold get_auth_cookies.
  destruct (all _); simpl; [right | left]; split; eauto.
Qed.

(** C5.  [get_auth_cookies] raises the 401 [HTTPException] (the
    spec's Unauthenticated) exactly when at least one of the three
    tokens is absent or empty, and then the endpoint raises the same
    exception with the log of requests untouched: no network call has
    been made. *)
Theorem get_auth_cookies_unauthenticated (p : Process) :
  (get_auth_cookies p = Raise unauthenticated
   ↔ absent_or_empty (COOKIE_DLE_USER_ID p)
     ∨ absent_or_empty (COOKIE_DLE_PASSWORD p)
     ∨ absent_or_empty (COOKIE_PHPSESSID p))
  ∧ ∀ html_parser remote query log,
      absent_or_empty (COOKIE_DLE_USER_ID p)
      ∨ absent_or_empty (COOKIE_DLE_PASSWORD p)
      ∨ absent_or_empty (COOKIE_PHPSESSID p) →
      search html_parser remote p query log = (Raise unauthenticated, log).
Proof.
  assert (Hiff : get_auth_cookies p = Raise unauthenticated
                 ↔ absent_or_empty (COOKIE_DLE_USER_ID p)
                   ∨ absent_or_empty (COOKIE_DLE_PASSWORD p)
                   ∨ absent_or_empty (COOKIE_PHPSESSID p)).
  { rewrite <- all_false.
    destruct (get_auth_cookies_cases p) as [[Hall Hget] | [Hall [cookies Hget]]];
      rewrite Hall, Hget; split; intros H; try reflexivity; discriminate. }
  split; [exact Hiff|].
  intros html_parser remote query log Hmissing.
  apply Hiff in Hmissing.
  unfold search, mbind, io_bind, lift. rewrite Hmissing. reflexivity.
Qed.

Lemma get_auth_cookies_unauthenticated_witness :
  search Demo.parser Demo.site_404
    (import_module (list_to_map [("DLE_USER_ID", "1"); ("PHPSESSID", "")])) "anything" []
  = (Raise unauthenticated, []).
Proof.
  apply (proj2 (get_auth_cookies_unauthenticated _)).
  right. left. left. reflexivity.
Defined.

(** ** The search *)

Section Search.
Variable html_parser : string → option (list Soup.PageElement).
Variable remote : list Request → Request → option Response.

#[local] Abbreviation fetch := (fetch_and_parse_book html_parser remote).
#[local] Abbreviation loop := (for_links html_parser remote).

(** The loop visits every link once, in order, and returns the
    records of the fetches that did not raise, after those it
    started with. *)
Lemma loop_spec links cookies : ∀ results log,
  loop links cookies results log
  = (Ok (results ++
         omap record_of
           (imap (fun i link => (fetch link cookies (log ++ visits cookies (take i links))).1)
                 links)),
     log ++ visits cookies links)%list.
Proof.
  induction links as [|link rest IH]; intros results log.
  - simpl. rewrite !app_nil_r. reflexivity.
  - rewrite loop_cons, IH. simpl. rewrite app_nil_r.
    rewrite <- !app_assoc. simpl. f_equal. f_equal.
    erewrite (imap_ext _ (_ ∘ S) rest).
    + destruct (fetch link cookies log).1 as [book|e]; simpl.
      * rewrite <- app_assoc. reflexivity.
      * reflexivity.
    + intros i link' _. simpl. rewrite <- app_assoc. reflexivity.
Qed.

(** C4.  When the listing request is answered with a status other than
    200, [perform_search] raises the 500 [HTTPException] (the spec's
    SearchUnavailable) and the only request issued is the listing POST:
    no detail page is fetched.  The endpoint passes the exception on,
    so the whole query fails. *)
Theorem listing_failure_terminal query cookies log (r : Response) :
  remote log (search_request query cookies) = Some r →
  status_code r ≠ 200%Z →
  perform_search html_parser remote query cookies log
  = (Raise (HTTPException 500 "Failed to search ranobes.com"),
     (log ++ [search_request query cookies])%list)
  ∧ ∀ p, get_auth_cookies p = Ok cookies →
         search html_parser remote p query log
         = (Raise (HTTPException 500 "Failed to search ranobes.com"),
            (log ++ [search_request query cookies])%list).
Proof.
  intros Hr Hs.
  assert (Hperform : perform_search html_parser remote query cookies log
                     = (Raise (HTTPException 500 "Failed to search ranobes.com"),
                        (log ++ [search_request query cookies])%list)).
  { unfold perform_search, mbind, io_bind, send. rewrite Hr. simpl.
    rewrite bool_decide_eq_true_2 by exact Hs. reflexivity. }
  split; [exact Hperform|].
  intros p Hp. unfold search. unfold mbind at 1. unfold io_bind, lift. rewrite Hp.
  unfold mbind. rewrite Hperform. reflexivity.
Qed.

End Search.

Lemma listing_failure_terminal_witness :
  perform_search Demo.parser Demo.site_down "q" Demo.some_cookies []
  = (Raise (HTTPException 500 "Failed to search ranobes.com"),
     [search_request "q" Demo.some_cookies]).
Proof.
  apply (listing_failure_terminal Demo.parser Demo.site_down "q" Demo.some_cookies []
           (mkResponse 503 "Service Unavailable")).
  - reflexivity.
  - simpl. lia.
Defined.

Section Collecting.
Variable html_parser : string → option (list Soup.PageElement).
Variable remote : list Request → Request → option Response.

#[local] Abbreviation fetch := (fetch_and_parse_book html_parser remote).

(** C1.  When the listing is answered with 200, parses and yields
    [links], [perform_search] returns (it does not raise) the records
    of the links whose [fetch_and_parse_book] returned, in the order of
    the links; the [i]-th link is fetched after the listing request and
    the [i] links before it.  A link answered with 200 whose page the
    extraction turns into a record gives that record.  A link answered
    with a status other than 200, a link whose page makes the
    extraction raise or is refused by the parser, and a link whose
    request could not be completed, give no record.  With three links,
    the second answered with another status and the other two giving
    [b1] and [b3], the result is [[b1; b3]]. *)
Theorem perform_search_collects query cookies log body (listing : Soup.Element) links :
  remote log (search_request query cookies) = Some (mkResponse 200 body) →
  BeautifulSoup html_parser body = Ok listing →
  title_links (Soup.select listing Selectors.articles) = Ok links →
  let log0 := (log ++ [search_request query cookies])%list in
  let outcome := fun (i : nat) (link : string) =>
    (fetch link cookies (log0 ++ visits cookies (take i links))%list).1 in
  perform_search html_parser remote query cookies log
  = (Ok (omap record_of (imap outcome links)), (log0 ++ visits cookies links)%list)
  ∧ (∀ i link page soup book,
       remote (log0 ++ visits cookies (take i links))%list (GET link cookies)
       = Some (mkResponse 200 page) →
       BeautifulSoup html_parser page = Ok soup →
       parse_book soup = Ok book →
       record_of (outcome i link) = Some book)
  ∧ (∀ i link r,
       remote (log0 ++ visits cookies (take i links))%list (GET link cookies) = Some r →
       status_code r ≠ 200%Z →
       record_of (outcome i link) = None)
  ∧ (∀ i link page soup e,
       remote (log0 ++ visits cookies (take i links))%list (GET link cookies)
       = Some (mkResponse 200 page) →
       BeautifulSoup html_parser page = Ok soup →
       parse_book soup = Raise e →
       record_of (outcome i link) = None)
  ∧ (∀ i link page e,
       remote (log0 ++ visits cookies (take i links))%list (GET link cookies)
       = Some (mkResponse 200 page) →
       BeautifulSoup html_parser page = Raise e →
       record_of (outcome i link) = None)
  ∧ (∀ i link,
       remote (log0 ++ visits cookies (take i links))%list (GET link cookies) = None →
       record_of (outcome i link) = None)
  ∧ (∀ l1 l2 l3 b1 b3 r2,
       links = [l1; l2; l3] →
       outcome 0 l1 = Ok b1 →
       remote (log0 ++ [GET l1 cookies])%list (GET l2 cookies) = Some r2 →
       status_code r2 ≠ 200%Z →
       outcome 2 l3 = Ok b3 →
       (perform_search html_parser remote query cookies log).1 = Ok [b1; b3]).
Proof.
  intros Hr Hlisting Hlinks log0 outcome.
  assert (Hperform : perform_search html_parser remote query cookies log
            = (Ok (omap record_of (imap outcome links)),
               (log0 ++ visits cookies links)%list)).
  { unfold perform_search. unfold mbind at 1. unfold io_bind, send. rewrite Hr. simpl.
    unfold mbind at 1. unfold io_bind, lift. rewrite Hlisting.
    unfold mbind at 1. unfold io_bind. rewrite Hlinks.
    rewrite loop_spec. reflexivity. }
  assert (Hbad : ∀ i link r,
            remote (log0 ++ visits cookies (take i links))%list (GET link cookies) = Some r →
            status_code r ≠ 200%Z → record_of (outcome i link) = None).
  { intros i link r Hi Hs. unfold outcome.
    rewrite (fetch_bad_status _ _ _ _ _ r Hi Hs). reflexivity. }
  split; [exact Hperform|]. split; [|split; [exact Hbad|split; [|split; [|split]]]].
  - intros i link page soup book Hi Hsoup Hb. unfold outcome.
    rewrite (fetch_200 _ _ _ _ _ page Hi), Hsoup, Hb. reflexivity.
  - intros i link page soup e Hi Hsoup He. unfold outcome.
    rewrite (fetch_200 _ _ _ _ _ page Hi), Hsoup, He. reflexivity.
  - intros i link page e Hi Hsoup. unfold outcome.
    rewrite (fetch_200 _ _ _ _ _ page Hi), Hsoup. reflexivity.
  - intros i link Hi. unfold outcome.
    rewrite (fetch_transport _ _ _ _ _ Hi). reflexivity.
  - intros l1 l2 l3 b1 b3 r2 -> H1 H2 Hs H3.
    rewrite Hperform. simpl. rewrite H1, H3. simpl.
    rewrite (Hbad 1 l2 r2 H2 Hs). reflexivity.
Qed.

End Collecting.

Lemma perform_search_collects_witness :
  (perform_search Demo.parser Demo.site_404 "q" Demo.some_cookies []).1
  = Ok [Demo.book_one; Demo.bare_book "Book Three"].
Proof.
  eapply (perform_search_collects Demo.parser Demo.site_404 "q" Demo.some_cookies []
            Demo.listing_markup (Soup.document Demo.listing_page)
            [Demo.link_one; Demo.link_two; Demo.link_three]).
  - reflexivity.
  - reflexivity.
  - vm_compute. reflexivity.
  - reflexivity.
  - vm_compute. reflexivity.
  - vm_compute. reflexivity.
  - simpl. lia.
  - vm_compute. reflexivity.
Defined.

(** ** Which environment decides *)

Section Startup.
Variable html_parser : string → option (list Soup.PageElement).
Variable remote : list Request → Request → option Response.

Lemma title_links_raise articles e :
  title_links articles = Raise e → e = KeyError.
Proof.
  induction articles as [|a rest IH]; simpl; [discriminate|].
  destruct (Soup.select_one a Selectors.h2_title_a) as [anchor|]; [|exact IH].
  simpl. destruct (Soup.get anchor "href"); simpl.
  - destruct (title_links rest) as [links|e']; simpl; [discriminate|].
    intros [= <-]. apply IH. reflexivity.
  - intros [= <-]. reflexivity.
Qed.

(** What [perform_search] can raise: a failure of the client on the
    listing request, the 500 of a refused listing, the parser's
    refusal of the listing, or the [KeyError] of a title anchor
    without [href]. *)
Lemma perform_search_raise query cookies log e :
  (perform_search html_parser remote query cookies log).1 = Raise e →
  e = TransportError
  ∨ e = HTTPException 500 "Failed to search ranobes.com"
  ∨ e = ParserRejectedMarkup
  ∨ e = KeyError.
Proof.
  unfold perform_search. unfold mbind at 1. unfold io_bind, send.
  destruct (remote log (search_request query cookies)) as [r|]; simpl.
  - case_bool_decide; simpl.
    + intros [= <-]. auto.
    + unfold mbind at 1. unfold io_bind, lift. unfold BeautifulSoup.
      destruct (html_parser (text r)) as [nodes|]; simpl.
      * unfold mbind at 1. unfold io_bind.
        destruct (title_links _) as [links|e'] eqn:Hlinks; simpl.
        -- rewrite loop_spec. discriminate.
        -- intros [= <-]. do 3 right. exact (title_links_raise _ _ Hlinks).
      * intros [= <-]. auto.
  - intros [= <-]. auto.
Qed.

(** C9, as the module has it.  The three secrets are read when the
    module is imported; a later change of the environment changes
    nothing: the process whose environment has become [env'] answers
    a request as the freshly imported one does, and the endpoint
    raises a 401 exactly when one of the three secrets was absent or
    empty in the environment [env] of the import. *)
Theorem unauthenticated_decided_at_import (env env' : gmap string string) query log :
  search html_parser remote (with_environ env' (import_module env)) query log
  = search html_parser remote (import_module env) query log
  ∧ ((∃ detail, (search html_parser remote (with_environ env' (import_module env)) query log).1
                = Raise (HTTPException 401 detail))
     ↔ all [getenv env "DLE_USER_ID"; getenv env "DLE_PASSWORD"; getenv env "PHPSESSID"]
       = false).
Proof.
  split; [reflexivity|].
  set (p := with_environ env' (import_module env)).
  assert (Hsame : all [COOKIE_DLE_USER_ID p; COOKIE_DLE_PASSWORD p; COOKIE_PHPSESSID p]
                  = all [getenv env "DLE_USER_ID"; getenv env "DLE_PASSWORD";
                         getenv env "PHPSESSID"]) by reflexivity.
  destruct (get_auth_cookies_cases p) as [[Hall Hget] | [Hall [cookies Hget]]];
    rewrite Hsame in Hall; rewrite Hall.
  - split; [reflexivity|]. intros _. exists "Missing required authentication environment variables".
    unfold search, mbind, io_bind, lift. rewrite Hget. reflexivity.
  - split; [|discriminate]. intros [detail Hraise]. exfalso.
    unfold search in Hraise. unfold mbind at 1 in Hraise. unfold io_bind, lift in Hraise.
    rewrite Hget in Hraise. unfold mbind, io_bind in Hraise.
    destruct (perform_search html_parser remote query cookies log) as [[books|e] log'] eqn:Hp;
      simpl in Hraise; [discriminate|].
    injection Hraise as ->.
    pose proof (perform_search_raise query cookies log (HTTPException 401 detail)) as Hcases.
    rewrite Hp in Hcases. destruct (Hcases eq_refl) as [H|[H|[H|H]]]; discriminate.
Qed.

End Startup.

(** C9 as stated fails: a process imported with an empty environment,
    whose environment holds all three secrets when the request
    arrives, still answers with the 401. *)
Lemma request_time_secrets_ignored :
  let p := with_environ secrets_env (import_module ∅) in
  all [getenv (environ p) "DLE_USER_ID"; getenv (environ p) "DLE_PASSWORD";
       getenv (environ p) "PHPSESSID"] = true
  ∧ search Demo.parser Demo.site_404 p "q" [] = (Raise unauthenticated, []).
Proof. split; reflexivity. Qed.

(** ** The record of a page that parses *)

Lemma parse_book_ok (soup b h1 : Soup.Element) (t style : string) (d : option Z) :
  Soup.select_one soup Selectors.book = Some b →
  Soup.select_one b Selectors.h1_title = Some h1 →
  first_content_strip h1 = Ok (TitleStr t) →
  subscript (Soup.select_one b Selectors.cover) "style" = Ok style →
  parse_duration (Soup.select_one b Selectors.timeRequired) = Ok d →
  parse_book soup = Ok (built_record b t style d).
Proof.
  intros Hb Hh1 Ht Hs Hd. unfold parse_book, built_record, publisher_of.
  rewrite Hb. simpl. rewrite Hh1. simpl. rewrite Ht. simpl. rewrite Hs. simpl.
  rewrite Hd. simpl.
  destruct (Soup.select b Selectors.publishers); reflexivity.
Qed.

(** A record comes only from a page with the container, the heading
    with a string first, the cover element with its style and an hour
    count [int] accepts, and it is the record built from them. *)
Lemma parse_book_inv (soup : Soup.Element) (r : BookMetadata) :
  parse_book soup = Ok r →
  ∃ b h1 t fig style d,
    Soup.select_one soup Selectors.book = Some b
    ∧ Soup.select_one b Selectors.h1_title = Some h1
    ∧ first_content_strip h1 = Ok (TitleStr t)
    ∧ Soup.select_one b Selectors.cover = Some fig
    ∧ Soup.get fig "style" = Some style
    ∧ parse_duration (Soup.select_one b Selectors.timeRequired) = Ok d
    ∧ r = built_record b t style d.
Proof.
  intros Hr. pose proof Hr as Hr'. revert Hr'. unfold parse_book.
  destruct (Soup.select_one soup Selectors.book) as [b|] eqn:Hb; simpl; [|discriminate].
  destruct (Soup.select_one b Selectors.h1_title) as [h1|] eqn:Hh1; simpl; [|discriminate].
  destruct (first_content_strip h1) as [[t|]|e] eqn:Ht; simpl; [| |discriminate].
  - destruct (Soup.select_one b Selectors.cover) as [fig|] eqn:Hc; simpl; [|discriminate].
    destruct (Soup.get fig "style") as [style|] eqn:Hs; simpl; [|discriminate].
    destruct (parse_duration (Soup.select_one b Selectors.timeRequired)) as [d|e] eqn:Hd;
      simpl; [|discriminate].
    intros _. exists b, h1, t, fig, style, d.
    split; [reflexivity|]. split; [exact Hh1|]. split; [exact Ht|]. split; [exact Hc|].
    split; [exact Hs|]. split; [exact Hd|].
    assert (Hok : parse_book soup = Ok (built_record b t style d)).
    { apply (parse_book_ok soup b h1 t style d Hb Hh1 Ht); [|exact Hd].
      rewrite Hc. unfold subscript. rewrite Hs. reflexivity. }
    rewrite Hok in Hr. injection Hr as <-. reflexivity.
  - destruct (subscript (Soup.select_one b Selectors.cover) "style"); simpl; [|discriminate].
    destruct (parse_duration (Soup.select_one b Selectors.timeRequired)); simpl; discriminate.
Qed.

Lemma subscript_some (el : Soup.Element) (key v : string) :
  Soup.get el key = Some v → subscript (Some el) key = Ok v.
Proof. intros H. unfold subscript. rewrite H. reflexivity. Qed.

(** ** Blank titles *)

Lemma rstrip_empty (s : string) : Text.rstrip s = "" ↔ all_space s = true.
Proof.
  induction s as [|c r IH]; simpl; [tauto|].
  destruct (Text.rstrip r) eqn:Hr.
  - destruct (Text.isspace c); simpl; [tauto|]. split; discriminate.
  - split; [discriminate|]. intros H. apply andb_true_iff in H as [_ H].
    apply IH in H. discriminate.
Qed.

Lemma lstrip_all_space (s : string) : all_space (Text.lstrip s) = all_space s.
Proof.
  induction s as [|c r IH]; simpl; [reflexivity|].
  destruct (Text.isspace c) eqn:Hc; simpl; [exact IH|]. rewrite Hc. reflexivity.
Qed.

Lemma strip_empty (s : string) : Text.strip s = "" ↔ all_space s = true.
Proof. unfold Text.strip. rewrite rstrip_empty, lstrip_all_space. tauto. Qed.

(** ** Pages within the limit of [int] *)

Lemma length_append (a b : string) :
  String.length (a +:+ b) = (String.length a + String.length b)%nat.
Proof. induction a as [|c a IH]; simpl; [reflexivity|]. rewrite IH. reflexivity. Qed.

(** A container without a [timeRequired] element, or with one whose
    [content] is no longer than the limit, has its hour count within
    the limit. *)
Lemma short_content_within_limit (b : Soup.Element) :
  (∀ meta content,
     Soup.select_one b Selectors.timeRequired = Some meta →
     Soup.get meta "content" = Some content →
     (N.of_nat (String.length content) ≤ Text.int_max_str_digits)%N) →
  hours_within_limit b.
Proof.
  intros Hshort meta ds rest Hmeta Hc _.
  pose proof (Hshort meta _ Hmeta Hc) as Hlen.
  rewrite !length_append in Hlen. lia.
Qed.

(** ** Defaults of the record *)

(** C7, as the module has it.  For a page with the book container, a
    title heading whose first child is a string, a cover element
    carrying a [style] attribute, and an hour count no longer than
    [int] accepts, the extraction returns a record.  Its title is that
    string stripped, so it is empty exactly when the string is all
    whitespace.  Every optional scalar is absent when its fragment is
    missing, and [genres] and [tags] are lists, empty when no anchor
    matches, never absent. *)
Theorem parse_book_defaults (soup b h1 fig : Soup.Element) (s style : string)
    (rest : list Soup.PageElement) :
  Soup.select_one soup Selectors.book = Some b →
  Soup.select_one b Selectors.h1_title = Some h1 →
  Soup.contents h1 = Soup.NavigableString s :: rest
  ∨ Soup.contents h1 = Soup.Comment s :: rest →
  Soup.select_one b Selectors.cover = Some fig →
  Soup.get fig "style" = Some style →
  hours_within_limit b →
  ∃ r, parse_book soup = Ok r
       ∧ title r = Text.strip s
       ∧ (title r = "" ↔ all_space s = true)
       ∧ (Soup.select_one b Selectors.span_subtitle = None → subtitle r = None)
       ∧ (Soup.select_one b Selectors.description = None → description r = None)
       ∧ (Re.search_url style = None → cover r = None)
       ∧ (Soup.select_one b Selectors.dateCreated = None → publishedYear r = None)
       ∧ (Soup.select_one b Selectors.locationCreated = None → language r = None)
       ∧ (Soup.select b Selectors.publishers = [] → publisher r = None)
       ∧ (Soup.select_one b Selectors.timeRequired = None → duration r = None)
       ∧ (Soup.select b Selectors.genre = [] → genres r = Some [])
       ∧ (Soup.select b Selectors.keywords = [] → tags r = Some [])
       ∧ is_Some (genres r) ∧ is_Some (tags r).
Proof.
  intros Hb Hh1 Hfirst Hc Hs Hlimit.
  assert (Ht : first_content_strip h1 = Ok (TitleStr (Text.strip s))).
  { unfold first_content_strip. destruct Hfirst as [-> | ->]; reflexivity. }
  destruct (parse_duration_within b Hlimit) as [d Hd].
  eexists. split.
  { apply (parse_book_ok soup b h1 _ style d Hb Hh1 Ht); [|exact Hd].
    rewrite Hc. apply subscript_some, Hs. }
  cbn [built_record title subtitle description cover publishedYear language publisher
       duration genres tags].
  split; [reflexivity|]. split; [apply strip_empty|].
  unfold publisher_of.
  repeat split; try (intros ->; reflexivity); eauto.
  intros Hnone. rewrite Hnone in Hd. injection Hd as <-. reflexivity.
Qed.

Lemma parse_book_defaults_witness :
  ∃ r, parse_book (Soup.document (Demo.bare_page "Book Two")) = Ok r
       ∧ title r = "Book Two"
       ∧ subtitle r = None ∧ publisher r = None ∧ duration r = None
       ∧ genres r = Some [] ∧ tags r = Some [].
Proof.
  edestruct (parse_book_defaults (Soup.document (Demo.bare_page "Book Two")))
    as (r & Hr & Ht & _ & Hsub & _ & _ & _ & _ & Hpub & Hdur & Hgen & Htag & _);
    [reflexivity | reflexivity | left; reflexivity | reflexivity | reflexivity
    | intros meta ds rest Hmeta; vm_compute in Hmeta; discriminate Hmeta |].
  exists r. split; [exact Hr|]. split; [exact Ht|].
  split; [apply Hsub; reflexivity|]. split; [apply Hpub; reflexivity|].
  split; [apply Hdur; reflexivity|]. split; [apply Hgen | apply Htag]; reflexivity.
Defined.

(** C7 as stated fails on the title: a page with the container and a
    heading that holds one blank gives a record whose title is the
    empty string. *)
Lemma blank_title_record :
  ∃ b h1,
    Soup.select_one (Soup.document (Demo.bare_page " ")) Selectors.book = Some b
    ∧ Soup.select_one b Selectors.h1_title = Some h1
    ∧ parse_book (Soup.document (Demo.bare_page " ")) = Ok (Demo.bare_book "")
    ∧ title (Demo.bare_book "") = "".
Proof. do 2 eexists. repeat split; reflexivity. Qed.

(** ** Publisher *)

Lemma join_Joined (sep : string) (parts : list string) :
  Joined sep parts (Text.join sep parts).
Proof.
  induction parts as [|t rest IH]; [constructor|].
  destruct rest as [|u rest]; [constructor|].
  change (Text.join sep (t :: u :: rest)) with (t +:+ sep +:+ Text.join sep (u :: rest)).
  constructor. exact IH.
Qed.

(** A publisher anchor is an [a] tag, so its text is ordinary text. *)
Lemma publisher_anchor_plain (b a : Soup.Element) :
  In a (Soup.select b Selectors.publishers) → Soup.interesting_string_types a = None.
Proof.
  unfold Soup.select. intros Hin. apply filter_In in Hin as [_ Hmatch].
  unfold Soup.matches in Hmatch. cbn [rev Selectors.publishers app] in Hmatch.
  apply andb_true_iff in Hmatch as [Hsubject _].
  unfold Soup.matches_compound in Hsubject. cbn in Hsubject.
  rewrite !andb_true_r in Hsubject. apply bool_decide_eq_true_1 in Hsubject.
  unfold Soup.interesting_string_types. case_bool_decide as Hcontainer; [|reflexivity].
  exfalso. unfold Soup.string_containers in Hcontainer.
  repeat (apply elem_of_cons in Hcontainer as [Hcontainer | Hcontainer];
          [rewrite Hcontainer in Hsubject; discriminate Hsubject|]).
  apply elem_of_nil in Hcontainer. exact Hcontainer.
Qed.

(** The text of a tag of ordinary text that holds one string. *)
Lemma get_text_single (sep s : string) (el : Soup.Element) :
  Soup.interesting_string_types el = None →
  Soup.contents el = [Soup.NavigableString s] →
  Soup.get_text sep el
  = Text.join sep (List.filter Text.nonempty [Text.strip s]).
Proof. intros Hplain Hcontents. unfold Soup.get_text. rewrite Hplain, Hcontents. reflexivity. Qed.

(** C8.  A page with the container, a title heading with a string
    first, a styled cover element and an hour count [int] accepts
    gives a record whose [publisher] is absent when no publisher
    anchor is found, and otherwise the texts of all the anchors, in
    order, joined with [", "]; two anchors holding "Acme" and "Beta"
    give "Acme, Beta". *)
Theorem publisher_joined (soup b h1 fig : Soup.Element) (s style : string)
    (rest : list Soup.PageElement) :
  Soup.select_one soup Selectors.book = Some b →
  Soup.select_one b Selectors.h1_title = Some h1 →
  Soup.contents h1 = Soup.NavigableString s :: rest
  ∨ Soup.contents h1 = Soup.Comment s :: rest →
  Soup.select_one b Selectors.cover = Some fig →
  Soup.get fig "style" = Some style →
  hours_within_limit b →
  ∃ r, parse_book soup = Ok r
       ∧ (Soup.select b Selectors.publishers = [] → publisher r = None)
       ∧ (Soup.select b Selectors.publishers ≠ [] →
          ∃ p, publisher r = Some p
               ∧ Joined ", " (map (Soup.get_text "") (Soup.select b Selectors.publishers)) p)
       ∧ (∀ a1 a2, Soup.select b Selectors.publishers = [a1; a2] →
                   Soup.contents a1 = [Soup.NavigableString "Acme"] →
                   Soup.contents a2 = [Soup.NavigableString "Beta"] →
                   publisher r = Some "Acme, Beta").
Proof.
  intros Hb Hh1 Hfirst Hc Hs Hlimit.
  assert (Ht : first_content_strip h1 = Ok (TitleStr (Text.strip s))).
  { unfold first_content_strip. destruct Hfirst as [-> | ->]; reflexivity. }
  destruct (parse_duration_within b Hlimit) as [d Hd].
  eexists. split.
  { apply (parse_book_ok soup b h1 _ style d Hb Hh1 Ht); [|exact Hd].
    rewrite Hc. apply subscript_some, Hs. }
  cbn [built_record publisher]. unfold publisher_of. split; [|split].
  - intros ->. reflexivity.
  - intros Hne. destruct (Soup.select b Selectors.publishers) as [|a anchors] eqn:Hsel;
      [congruence|].
    eexists. split; [reflexivity|]. apply join_Joined.
  - intros a1 a2 Hsel H1 H2.
    assert (Hp1 : Soup.interesting_string_types a1 = None)
      by (apply (publisher_anchor_plain b); rewrite Hsel; simpl; auto).
    assert (Hp2 : Soup.interesting_string_types a2 = None)
      by (apply (publisher_anchor_plain b); rewrite Hsel; simpl; auto).
    rewrite Hsel. cbn [map].
    rewrite (get_text_single "" _ a1 Hp1 H1), (get_text_single "" _ a2 Hp2 H2).
    reflexivity.
Qed.

Lemma publisher_joined_witness :
  (∃ r, parse_book (Soup.document Demo.full_page) = Ok r
        ∧ publisher r = Some "Acme, Beta")
  ∧ (∃ r, parse_book (Soup.document (Demo.bare_page "Book Two")) = Ok r
          ∧ publisher r = None).
Proof.
  split.
  - edestruct (publisher_joined (Soup.document Demo.full_page))
      as (r & Hr & _ & _ & Hjoin);
      [reflexivity | reflexivity | left; reflexivity | reflexivity | reflexivity | |].
    + apply short_content_within_limit. intros meta content Hmeta Hcontent.
      vm_compute in Hmeta. injection Hmeta as <-.
      vm_compute in Hcontent. injection Hcontent as <-. vm_compute. discriminate.
    + exists r. split; [exact Hr|]. eapply Hjoin; vm_compute; reflexivity.
  - edestruct (publisher_joined (Soup.document (Demo.bare_page "Book Two")))
      as (r & Hr & Hnone & _);
      [reflexivity | reflexivity | left; reflexivity | reflexivity | reflexivity
      | intros meta ds rest Hmeta; vm_compute in Hmeta; discriminate Hmeta |].
    exists r. split; [exact Hr|]. apply Hnone. vm_compute. reflexivity.
Defined.

(** The record's [duration] and [cover] are what lines 74-76 and
    90-95 compute from the block. *)
Lemma parse_book_fields (soup : Soup.Element) (r : BookMetadata) :
  parse_book soup = Ok r →
  ∃ b fig style,
    Soup.select_one soup Selectors.book = Some b
    ∧ Soup.select_one b Selectors.cover = Some fig
    ∧ Soup.get fig "style" = Some style
    ∧ cover r = Re.search_url style
    ∧ parse_duration (Soup.select_one b Selectors.timeRequired) = Ok (duration r).
Proof.
  intros Hr.
  destruct (parse_book_inv soup r Hr)
    as (b & h1 & t & fig & style & d & Hb & Hh1 & Ht & Hc & Hs & Hd & ->).
  exists b, fig, style. auto.
Qed.

(** ** Duration *)

(** C6.  On a page with the container, a title heading with a string
    first and a styled cover element, the extraction returns a record
    whose [duration] is absent when the [timeRequired] element or its
    [content] attribute is missing.  For a present attribute, "PT5H"
    and "PT5H30M" both give 18000 and "P1D" gives an absent duration.
    In general a content that starts with "PT", the numeral of [n] and
    "H" gives [n * 3600] whatever follows, as long as the numeral has
    no more digits than [int] accepts; with more digits the extraction
    raises [ValueError]. *)
Theorem duration_hours (soup b h1 fig : Soup.Element) (s style : string)
    (rest : list Soup.PageElement) :
  Soup.select_one soup Selectors.book = Some b →
  Soup.select_one b Selectors.h1_title = Some h1 →
  Soup.contents h1 = Soup.NavigableString s :: rest
  ∨ Soup.contents h1 = Soup.Comment s :: rest →
  Soup.select_one b Selectors.cover = Some fig →
  Soup.get fig "style" = Some style →
  (Soup.select_one b Selectors.timeRequired = None →
   ∃ r, parse_book soup = Ok r ∧ duration r = None)
  ∧ ∀ meta, Soup.select_one b Selectors.timeRequired = Some meta →
      (Soup.get meta "content" = None →
       ∃ r, parse_book soup = Ok r ∧ duration r = None)
      ∧ (Soup.get meta "content" = Some "PT5H" →
         ∃ r, parse_book soup = Ok r ∧ duration r = Some 18000%Z)
      ∧ (Soup.get meta "content" = Some "PT5H30M" →
         ∃ r, parse_book soup = Ok r ∧ duration r = Some 18000%Z)
      ∧ (Soup.get meta "content" = Some "P1D" →
         ∃ r, parse_book soup = Ok r ∧ duration r = None)
      ∧ (∀ (n : N) tail,
           Soup.get meta "content" = Some ("PT" +:+ pretty n +:+ "H" +:+ tail) →
           (N.of_nat (String.length (pretty n)) ≤ Text.int_max_str_digits)%N →
           ∃ r, parse_book soup = Ok r ∧ duration r = Some (Z.of_N n * 3600)%Z)
      ∧ (∀ (n : N) tail,
           Soup.get meta "content" = Some ("PT" +:+ pretty n +:+ "H" +:+ tail) →
           (Text.int_max_str_digits < N.of_nat (String.length (pretty n)))%N →
           parse_book soup = Raise ValueError).
Proof.
  intros Hb Hh1 Hfirst Hc Hs.
  assert (Ht : first_content_strip h1 = Ok (TitleStr (Text.strip s))).
  { unfold first_content_strip. destruct Hfirst as [-> | ->]; reflexivity. }
  assert (Hstyle : subscript (Soup.select_one b Selectors.cover) "style" = Ok style)
    by (rewrite Hc; apply subscript_some, Hs).
  assert (Hrecord : ∀ d, parse_duration (Soup.select_one b Selectors.timeRequired) = Ok d →
                         ∃ r, parse_book soup = Ok r ∧ duration r = d).
  { intros d Hd. eexists. split; [exact (parse_book_ok soup b h1 _ style d Hb Hh1 Ht Hstyle Hd)|].
    reflexivity. }
  split.
  { intros Hnone. apply Hrecord. rewrite Hnone. reflexivity. }
  intros meta Hmeta. rewrite Hmeta in Hrecord.
  assert (Hnumeral : ∀ (n : N) tail,
            Re.match_hours ("PT" +:+ pretty n +:+ "H" +:+ tail) = Some (pretty n)).
  { intros n tail. destruct (int_pretty n) as (Hne & Hds & _).
    apply match_hours_spec. eauto. }
  split; [|split; [|split; [|split; [|split]]]].
  - intros Hcontent. apply Hrecord. unfold parse_duration. rewrite Hcontent. reflexivity.
  - intros Hcontent. apply Hrecord.
    rewrite (parse_duration_match meta _ "5" Hcontent eq_refl). reflexivity.
  - intros Hcontent. apply Hrecord.
    rewrite (parse_duration_match meta _ "5" Hcontent eq_refl). reflexivity.
  - intros Hcontent. apply Hrecord.
    apply (parse_duration_no_match meta _ Hcontent). reflexivity.
  - intros n tail Hcontent Hlen. apply Hrecord.
    rewrite (parse_duration_match meta _ _ Hcontent (Hnumeral n tail)).
    rewrite (int_within _ Hlen). destruct (int_pretty n) as (_ & _ & ->). reflexivity.
  - intros n tail Hcontent Hlen.
    unfold parse_book. rewrite Hb. simpl. rewrite Hh1. simpl. rewrite Ht. simpl.
    rewrite Hstyle. simpl. rewrite Hmeta.
    rewrite (parse_duration_match meta _ _ Hcontent (Hnumeral n tail)).
    rewrite (int_beyond _ Hlen). reflexivity.
Qed.

Lemma duration_hours_witness :
  (∃ r, parse_book (Soup.document (Cases.hours_page "PT5H")) = Ok r
        ∧ duration r = Some 18000%Z)
  ∧ (∃ r, parse_book (Soup.document (Cases.hours_page "PT5H30M")) = Ok r
          ∧ duration r = Some 18000%Z)
  ∧ (∃ r, parse_book (Soup.document (Cases.hours_page "P1D")) = Ok r
          ∧ duration r = None)
  ∧ (∃ r, parse_book (Soup.document Cases.timeless_page) = Ok r
          ∧ duration r = None)
  ∧ (∃ r, parse_book (Soup.document (Demo.bare_page "Book Two")) = Ok r
          ∧ duration r = None).
Proof.
  split; [|split; [|split; [|split]]].
  - edestruct (duration_hours (Soup.document (Cases.hours_page "PT5H"))) as (_ & Hmeta);
      [reflexivity | reflexivity | left; reflexivity | reflexivity | reflexivity |].
    edestruct Hmeta as (_ & H & _); [reflexivity | apply H; reflexivity].
  - edestruct (duration_hours (Soup.document (Cases.hours_page "PT5H30M"))) as (_ & Hmeta);
      [reflexivity | reflexivity | left; reflexivity | reflexivity | reflexivity |].
    edestruct Hmeta as (_ & _ & H & _); [reflexivity | apply H; reflexivity].
  - edestruct (duration_hours (Soup.document (Cases.hours_page "P1D"))) as (_ & Hmeta);
      [reflexivity | reflexivity | left; reflexivity | reflexivity | reflexivity |].
    edestruct Hmeta as (_ & _ & _ & H & _); [reflexivity | apply H; reflexivity].
  - edestruct (duration_hours (Soup.document Cases.timeless_page)) as (_ & Hmeta);
      [reflexivity | reflexivity | left; reflexivity | reflexivity | reflexivity |].
    edestruct Hmeta as (H & _); [reflexivity | apply H; reflexivity].
  - edestruct (duration_hours (Soup.document (Demo.bare_page "Book Two"))) as (H & _);
      [reflexivity | reflexivity | left; reflexivity | reflexivity | reflexivity |].
    apply H. reflexivity.
Defined.

(** ** Cover *)

(** C10, as the module has it.  In the record of any page, [cover] is
    the text between the ["("] of the leftmost [url(...)] occurrence
    that closes on its own line (no line feed before the [")"]) and the
    next [")"], taken as it is: quotes stay, and [url()] gives the
    empty string, present.  Without such an occurrence [cover] is
    absent. *)
Theorem cover_first_url_token (soup : Soup.Element) (r : BookMetadata) :
  parse_book soup = Ok r →
  ∃ b fig style,
    Soup.select_one soup Selectors.book = Some b
    ∧ Soup.select_one b Selectors.cover = Some fig
    ∧ Soup.get fig "style" = Some style
    ∧ (∀ pre tok post, first_url_occurrence style pre tok post → cover r = Some tok)
    ∧ (∀ pre post, first_url_occurrence style pre "'x.jpg'" post →
                   cover r = Some "'x.jpg'")
    ∧ (∀ pre post, first_url_occurrence style pre "" post → cover r = Some "")
    ∧ ((∀ pre tok post, ¬ url_occurrence style pre tok post) → cover r = None).
Proof.
  intros Hr.
  destruct (parse_book_fields soup r Hr) as (b & fig & style & Hb & Hc & Hs & Hcover & _).
  exists b, fig, style. rewrite Hcover.
  repeat split; try assumption.
  - intros pre tok post. apply search_url_first.
  - intros pre post. apply search_url_first.
  - intros pre post. apply search_url_first.
  - apply search_url_none.
Qed.

Lemma cover_first_url_token_witness : cover Demo.book_one = Some "'x.jpg'".
Proof.
  destruct (cover_first_url_token (Soup.document Demo.full_page) Demo.book_one)
    as (b & fig & style & Hb & Hc & Hs & Hfirst & _); [vm_compute; reflexivity|].
  vm_compute in Hb. injection Hb as <-.
  vm_compute in Hc. injection Hc as <-.
  vm_compute in Hs. injection Hs as <-.
  apply (Hfirst "background-image: " "'x.jpg'" ";").
  split; [repeat split|].
  intros pre' tok' post' (Hstyle & _ & _).
  repeat (destruct pre' as [|? pre'];
          [discriminate Hstyle | injection Hstyle as _ Hstyle]).
  simpl. lia.
Defined.

(** C10 as stated fails when a line feed stands between the
    parentheses: the style has the text [a], line feed, [b] between
    its first ["("] and the next [")"], and the record's cover is
    absent. *)
Lemma url_across_lines_no_cover :
  two_line_style = "url(" +:+ ("a" +:+ String Text.newline "b") +:+ ")"
  ∧ has_char ")" ("a" +:+ String Text.newline "b") = false
  ∧ ∃ b fig r,
      Soup.select_one (Soup.document (Demo.styled_page "Book" two_line_style)) Selectors.book = Some b
      ∧ Soup.select_one b Selectors.cover = Some fig
      ∧ Soup.get fig "style" = Some two_line_style
      ∧ parse_book (Soup.document (Demo.styled_page "Book" two_line_style)) = Ok r
      ∧ cover r = None.
Proof.
  split; [reflexivity|]. split; [reflexivity|].
  do 3 eexists. repeat split; reflexivity.
Qed.

(** * Further properties of the module *)

(** ** The cookies *)

(** X1.  When [get_auth_cookies] returns, the dictionary holds the
    three tokens of the module, none of them empty, under the cookie
    names [dle_user_id], [dle_password] and [PHPSESSID], and nothing
    else. *)
Theorem get_auth_cookies_dict (p : Process) (cookies : gmap string (option string)) :
  get_auth_cookies p = Ok cookies →
  ∃ user password session,
    user ≠ "" ∧ password ≠ "" ∧ session ≠ ""
    ∧ COOKIE_DLE_USER_ID p = Some user
    ∧ COOKIE_DLE_PASSWORD p = Some password
    ∧ COOKIE_PHPSESSID p = Some session
    ∧ cookies !! "dle_user_id" = Some (Some user)
    ∧ cookies !! "dle_password" = Some (Some password)
    ∧ cookies !! "PHPSESSID" = Some (Some session)
    ∧ ∀ key, is_Some (cookies !! key)
             → key = "dle_user_id" ∨ key = "dle_password" ∨ key = "PHPSESSID".
Proof.
  unfold get_auth_cookies, all. simpl.
  destruct (COOKIE_DLE_USER_ID p) as [[|c1 u]|]; simpl; try discriminate.
  destruct (COOKIE_DLE_PASSWORD p) as [[|c2 w]|]; simpl; try discriminate.
  destruct (COOKIE_PHPSESSID p) as [[|c3 s]|]; simpl; try discriminate.
  intros [= <-].
  exists (String c1 u), (String c2 w), (String c3 s).
  repeat (split; [first [discriminate | reflexivity]|]).
  intros key [v Hv].
  destruct (decide (key = "dle_user_id")) as [|H1]; [auto|].
  destruct (decide (key = "dle_password")) as [|H2]; [auto|].
  destruct (decide (key = "PHPSESSID")) as [|H3]; [auto|].
  rewrite !lookup_insert_ne in Hv by congruence.
  rewrite lookup_empty in Hv. discriminate.
Qed.

Lemma get_auth_cookies_dict_witness :
  ∃ cookies, get_auth_cookies Cases.configured = Ok cookies
             ∧ cookies !! "dle_password" = Some (Some "p").
Proof.
  eexists. split; [reflexivity|].
  destruct (get_auth_cookies_dict Cases.configured _ eq_refl)
    as (user & password & session & _ & _ & _ & _ & Hp & _ & _ & Hc & _).
  injection Hp as <-. exact Hc.
Defined.

(** ** Harvesting the links *)

Lemma title_links_cases (articles : list Soup.Element) :
  (title_links articles = Ok (omap title_href articles)
   ∧ Forall (fun a => ¬ anchor_without_href a) articles)
  ∨ (title_links articles = Raise KeyError ∧ Exists anchor_without_href articles).
Proof.
  induction articles as [|a rest IH]; [left; split; [reflexivity | constructor]|].
  cbn [title_links omap list_omap]. unfold title_href at 1.
  destruct (Soup.select_one a Selectors.h2_title_a) as [anchor|] eqn:Ha; simpl.
  - destruct (Soup.get anchor "href") as [href|] eqn:Hhref; simpl.
    + assert (Hgood : ¬ anchor_without_href a).
      { intros (anchor' & Ha' & Hnone). rewrite Ha in Ha'. injection Ha' as <-. congruence. }
      destruct IH as [[-> Hall] | [-> Hex]]; simpl.
      * left. split; [reflexivity|]. constructor; assumption.
      * right. split; [reflexivity|]. apply Exists_cons_tl, Hex.
    + right. split; [reflexivity|]. apply Exists_cons_hd. exists anchor. auto.
  - assert (Hgood : ¬ anchor_without_href a).
    { intros (anchor' & Ha' & _). rewrite Ha in Ha'. discriminate. }
    destruct IH as [[-> Hall] | [-> Hex]].
    + left. split; [reflexivity|]. constructor; assumption.
    + right. split; [reflexivity|]. apply Exists_cons_tl, Hex.
Qed.

Lemma no_unlinked_and_unlinked (articles : list Soup.Element) :
  Forall (fun a => ¬ anchor_without_href a) articles →
  Exists anchor_without_href articles → False.
Proof.
  intros Hall Hex. apply Exists_exists in Hex as (a & Hin & Hbad).
  rewrite Forall_forall in Hall. exact (Hall a Hin Hbad).
Qed.

Lemma omap_length_le {A B} (f : A → option B) (l : list A) :
  (length (omap f l) ≤ length l)%nat.
Proof.
  induction l as [|x l IH]; [simpl; lia|].
  cbn. destruct (f x); cbn; fold (omap f l); simpl; lia.
Qed.

(** X2.  The comprehension of line 133 returns exactly when no title
    anchor lacks its [href], and then the links are the [href]s of the
    title anchors in the order of the articles, the articles without a
    title anchor being passed over; so there are at most as many links
    as articles. *)
Theorem title_links_hrefs (articles : list Soup.Element) (links : list string) :
  (title_links articles = Ok links
   ↔ Forall (fun a => ¬ anchor_without_href a) articles
     ∧ links = omap title_href articles)
  ∧ (title_links articles = Ok links → (length links ≤ length articles)%nat).
Proof.
  assert (Hiff : title_links articles = Ok links
                 ↔ Forall (fun a => ¬ anchor_without_href a) articles
                   ∧ links = omap title_href articles).
  { destruct (title_links_cases articles) as [[Hok Hall] | [Hraise Hex]].
    - rewrite Hok. split.
      + intros [= <-]. auto.
      + intros [_ ->]. reflexivity.
    - rewrite Hraise. split; [discriminate|].
      intros [Hall _]. destruct (no_unlinked_and_unlinked articles Hall Hex). }
  split; [exact Hiff|].
  intros Hok. apply Hiff in Hok as [_ ->]. apply omap_length_le.
Qed.

Section Listing.
Variable html_parser : string → option (list Soup.PageElement).
Variable remote : list Request → Request → option Response.

(** [perform_search] after a listing answered with 200. *)
Lemma perform_search_200 query cookies log (r : Response) :
  remote log (search_request query cookies) = Some r →
  status_code r = 200%Z →
  perform_search html_parser remote query cookies log
  = match BeautifulSoup html_parser (text r) with
    | Ok soup =>
        match title_links (Soup.select soup Selectors.articles) with
        | Ok links =>
            for_links html_parser remote links cookies []
              (log ++ [search_request query cookies])%list
        | Raise e => (Raise e, (log ++ [search_request query cookies])%list)
        end
    | Raise e => (Raise e, (log ++ [search_request query cookies])%list)
    end.
Proof.
  intros Hr Hs. unfold perform_search. unfold mbind at 1. unfold io_bind, send.
  rewrite Hr. simpl. rewrite bool_decide_eq_false_2 by (rewrite Hs; auto).
  unfold mbind at 1. unfold io_bind, lift.
  destruct (BeautifulSoup html_parser (text r)) as [soup|e]; [|reflexivity].
  unfold mbind at 1. unfold io_bind, lift.
  destruct (title_links _); reflexivity.
Qed.

(** [perform_search] after a listing refused or not answered. *)
Lemma perform_search_refused query cookies log (r : Response) :
  remote log (search_request query cookies) = Some r →
  status_code r ≠ 200%Z →
  perform_search html_parser remote query cookies log
  = (Raise (HTTPException 500 "Failed to search ranobes.com"),
     (log ++ [search_request query cookies])%list).
Proof.
  intros Hr Hs. unfold perform_search, mbind, io_bind, send. rewrite Hr. simpl.
  rewrite bool_decide_eq_true_2 by exact Hs. reflexivity.
Qed.

Lemma perform_search_unanswered query cookies log :
  remote log (search_request query cookies) = None →
  perform_search html_parser remote query cookies log
  = (Raise TransportError, (log ++ [search_request query cookies])%list).
Proof.
  intros Hr. unfold perform_search, mbind, io_bind, send. rewrite Hr. reflexivity.
Qed.

(** Whatever happens, the requests of [perform_search] are the
    listing request and then detail requests. *)
Lemma perform_search_log query cookies log :
  ∃ links,
    (perform_search html_parser remote query cookies log).2
    = (log ++ search_request query cookies :: visits cookies links)%list.
Proof.
  destruct (remote log (search_request query cookies)) as [r|] eqn:Hr.
  - destruct (decide (status_code r = 200%Z)) as [Hs|Hs].
    + rewrite (perform_search_200 _ _ _ r Hr Hs).
      destruct (BeautifulSoup html_parser (text r)) as [soup|e]; [|exists []; reflexivity].
      destruct (title_links _) as [links|e].
      * exists links. rewrite loop_spec. simpl. rewrite <- app_assoc. reflexivity.
      * exists []. reflexivity.
    + exists []. rewrite (perform_search_refused _ _ _ r Hr Hs). reflexivity.
  - exists []. rewrite (perform_search_unanswered _ _ _ Hr). reflexivity.
Qed.

(** X3.  [perform_search] returns a list exactly when the listing
    request is answered with status 200, the parser accepts the
    listing's markup, and no title anchor among the result articles
    lacks its [href]; a failing detail page never makes it raise. *)
Theorem perform_search_returns_iff query cookies log :
  (∃ results, (perform_search html_parser remote query cookies log).1 = Ok results)
  ↔ ∃ r soup, remote log (search_request query cookies) = Some r
              ∧ status_code r = 200%Z
              ∧ BeautifulSoup html_parser (text r) = Ok soup
              ∧ Forall (fun a => ¬ anchor_without_href a)
                  (Soup.select soup Selectors.articles).
Proof.
  split.
  - intros [results Hres].
    destruct (remote log (search_request query cookies)) as [r|] eqn:Hr.
    + destruct (decide (status_code r = 200%Z)) as [Hs|Hs].
      * rewrite (perform_search_200 _ _ _ r Hr Hs) in Hres.
        destruct (BeautifulSoup html_parser (text r)) as [soup|e] eqn:Hsoup; [|discriminate].
        exists r, soup. split; [reflexivity|]. split; [exact Hs|]. split; [exact Hsoup|].
        destruct (title_links_cases (Soup.select soup Selectors.articles))
          as [[_ Hall] | [Hraise _]]; [exact Hall|].
        rewrite Hraise in Hres. discriminate.
      * rewrite (perform_search_refused _ _ _ r Hr Hs) in Hres. discriminate.
    + rewrite (perform_search_unanswered _ _ _ Hr) in Hres. discriminate.
  - intros (r & soup & Hr & Hs & Hsoup & Hall).
    rewrite (perform_search_200 _ _ _ r Hr Hs), Hsoup.
    destruct (title_links_cases (Soup.select soup Selectors.articles))
      as [[Hok _] | [_ Hex]].
    + rewrite Hok, loop_spec. eauto.
    + destruct (no_unlinked_and_unlinked _ Hall Hex).
Qed.

(** X4.  A single title anchor without [href] on a listing answered
    with 200 makes [perform_search] raise [KeyError], outside the
    [try] of the loop: the listing request is the only request made,
    no detail page is fetched, and the endpoint passes the exception
    on. *)
Theorem unlinked_anchor_aborts query cookies log (r : Response) (soup : Soup.Element) :
  remote log (search_request query cookies) = Some r →
  status_code r = 200%Z →
  BeautifulSoup html_parser (text r) = Ok soup →
  Exists anchor_without_href (Soup.select soup Selectors.articles) →
  perform_search html_parser remote query cookies log
  = (Raise KeyError, (log ++ [search_request query cookies])%list)
  ∧ ∀ p, get_auth_cookies p = Ok cookies →
         search html_parser remote p query log
         = (Raise KeyError, (log ++ [search_request query cookies])%list).
Proof.
  intros Hr Hs Hsoup Hex.
  assert (Hperform : perform_search html_parser remote query cookies log
                     = (Raise KeyError, (log ++ [search_request query cookies])%list)).
  { rewrite (perform_search_200 _ _ _ r Hr Hs), Hsoup.
    destruct (title_links_cases (Soup.select soup Selectors.articles))
      as [[_ Hall] | [-> _]]; [|reflexivity].
    destruct (no_unlinked_and_unlinked _ Hall Hex). }
  split; [exact Hperform|].
  intros p Hp. unfold search. unfold mbind at 1. unfold io_bind, lift. rewrite Hp.
  unfold mbind. rewrite Hperform. reflexivity.
Qed.

End Listing.

Lemma title_links_hrefs_witness :
  title_links
    (Soup.select (Soup.document Cases.skipping_listing) Selectors.articles)
  = Ok [Demo.link_one; Demo.link_three].
Proof.
  apply (proj1 (title_links_hrefs _ _)). split; [|reflexivity].
  vm_compute Soup.select.
  repeat constructor; intros (anchor & Ha & Hhref); vm_compute in Ha;
    first [discriminate Ha | injection Ha as <-; vm_compute in Hhref; discriminate Hhref].
Defined.

Lemma perform_search_returns_iff_witness :
  ∃ results,
    (perform_search Cases.parser Cases.site_skipping "q" Demo.some_cookies []).1 = Ok results.
Proof.
  apply (proj2 (perform_search_returns_iff Cases.parser Cases.site_skipping "q"
                  Demo.some_cookies [])).
  exists (mkResponse 200 Cases.skipping_markup), (Soup.document Cases.skipping_listing).
  split; [reflexivity|]. split; [reflexivity|]. split; [reflexivity|].
  vm_compute Soup.select.
  repeat constructor; intros (anchor & Ha & Hhref); vm_compute in Ha;
    first [discriminate Ha | injection Ha as <-; vm_compute in Hhref; discriminate Hhref].
Defined.

Lemma unlinked_anchor_aborts_witness :
  perform_search Cases.parser Cases.site_unlinked "q" Demo.some_cookies []
  = (Raise KeyError, [search_request "q" Demo.some_cookies]).
Proof.
  apply (unlinked_anchor_aborts Cases.parser Cases.site_unlinked "q" Demo.some_cookies []
           (mkResponse 200 Cases.unlinked_markup) (Soup.document Cases.unlinked_listing)).
  - reflexivity.
  - reflexivity.
  - reflexivity.
  - vm_compute Soup.select. apply Exists_cons_tl, Exists_cons_hd.
    eexists. split; reflexivity.
Defined.

(** ** What a search sends and what it can raise *)

Section Endpoint.
Variable html_parser : string → option (list Soup.PageElement).
Variable remote : list Request → Request → option Response.

(** X5.  A search that returns has parsed the listing, gives at most
    one record per result article of the listing, and has issued at
    most one detail request per article after the listing request. *)
Theorem result_count_bounded query cookies log (r : Response) (results : list BookMetadata) :
  remote log (search_request query cookies) = Some r →
  (perform_search html_parser remote query cookies log).1 = Ok results →
  ∃ soup,
    BeautifulSoup html_parser (text r) = Ok soup
    ∧ (length results ≤ length (Soup.select soup Selectors.articles))%nat
    ∧ (length (perform_search html_parser remote query cookies log).2
       ≤ length log + 1 + length (Soup.select soup Selectors.articles))%nat.
Proof.
  intros Hr Hres.
  destruct (decide (status_code r = 200%Z)) as [Hs|Hs].
  - rewrite (perform_search_200 _ _ _ _ _ r Hr Hs) in Hres |- *.
    destruct (BeautifulSoup html_parser (text r)) as [soup|e]; [|discriminate].
    exists soup. split; [reflexivity|].
    destruct (title_links _) as [links|e] eqn:Hlinks; [|discriminate].
    assert (length links ≤ length (Soup.select soup Selectors.articles))%nat as Hbound.
    { destruct (title_links_cases (Soup.select soup Selectors.articles))
        as [[Hok _] | [Hraise _]]; rewrite Hlinks in *; [|discriminate].
      injection Hok as ->. apply omap_length_le. }
    clear Hlinks. rename Hbound into Hlinks.
    rewrite loop_spec in Hres |- *. cbn [fst snd] in Hres |- *. injection Hres as <-.
    assert (Hvisits : length (visits cookies links) = length links)
      by (unfold visits; apply length_map).
    split.
    + change (length (omap record_of (imap (fun i link =>
                 (fetch_and_parse_book html_parser remote link cookies
                    ((log ++ [search_request query cookies]) ++
                     visits cookies (take i links))%list).1) links))
              ≤ length (Soup.select soup Selectors.articles))%nat.
      etrans; [apply omap_length_le|]. rewrite length_imap. exact Hlinks.
    + rewrite !length_app, Hvisits. simpl. lia.
  - rewrite (perform_search_refused _ _ _ _ _ r Hr Hs) in Hres. discriminate.
Qed.

(** X6.  Every request the endpoint issues carries the cookies that
    [get_auth_cookies] returned: the requests are the listing POST
    followed by detail GETs, all with that dictionary. *)
Theorem requests_carry_cookies (p : Process) query log cookies :
  get_auth_cookies p = Ok cookies →
  ∃ links,
    (search html_parser remote p query log).2
    = (log ++ search_request query cookies :: visits cookies links)%list
    ∧ Forall (fun req => cookies_of req = cookies)
        (search_request query cookies :: visits cookies links).
Proof.
  intros Hp.
  destruct (perform_search_log html_parser remote query cookies log) as [links Hlog].
  exists links. split.
  - unfold search. unfold mbind at 1. unfold io_bind, lift. rewrite Hp.
    unfold mbind, io_bind.
    destruct (perform_search html_parser remote query cookies log) as [[books|e] log'];
      exact Hlog.
  - constructor; [reflexivity|]. unfold visits. apply Forall_map.
    apply Forall_forall. intros link _. reflexivity.
Qed.


(** On a stateless site the outcome of a fetch does not depend on
    the log. *)
Lemma fetch_stateless url cookies log log' :
  stateless remote →
  (fetch_and_parse_book html_parser remote url cookies log).1
  = (fetch_and_parse_book html_parser remote url cookies log').1.
Proof.
  intros Hstateless. unfold fetch_and_parse_book, mbind, io_bind, send.
  rewrite (Hstateless log log').
  destruct (remote log' (GET url cookies)) as [r|]; simpl; [|reflexivity].
  case_bool_decide; [reflexivity|].
  unfold lift. destruct (BeautifulSoup html_parser (text r)); reflexivity.
Qed.

Lemma omap_imap_const {A B C} (f : B → option C) (g : A → B) (l : list A) :
  omap f (imap (fun _ => g) l) = omap (fun x => f (g x)) l.
Proof.
  change (fun _ : nat => g) with (const (A := A → B) (B := nat) g). rewrite imap_const.
  induction l as [|x l IH]; [reflexivity|].
  cbn. fold (omap f (g <$> l)). fold (omap (fun x => f (g x)) l). rewrite IH. reflexivity.
Qed.

(** X8.  On a site whose answers do not depend on earlier requests,
    each link contributes on its own: the result of a search is the
    list, in link order, of the records of the links fetched one by
    one, so a failing link changes nothing for the others. *)
Theorem stateless_site_per_link query cookies log body (soup : Soup.Element) links :
  stateless remote →
  remote log (search_request query cookies) = Some (mkResponse 200 body) →
  BeautifulSoup html_parser body = Ok soup →
  title_links (Soup.select soup Selectors.articles) = Ok links →
  (perform_search html_parser remote query cookies log).1
  = Ok (omap (fun link =>
                record_of (fetch_and_parse_book html_parser remote link cookies []).1)
             links).
Proof.
  intros Hstateless Hr Hsoup Hlinks.
  rewrite (perform_search_200 _ _ _ _ _ _ Hr eq_refl). simpl text.
  rewrite Hsoup, Hlinks, loop_spec.
  simpl. f_equal. f_equal.
  rewrite (imap_ext _ (fun _ link =>
             (fetch_and_parse_book html_parser remote link cookies []).1) links).
  - apply omap_imap_const.
  - intros i link _. apply fetch_stateless, Hstateless.
Qed.

End Endpoint.

Lemma result_count_bounded_witness :
  ∃ soup,
    BeautifulSoup Demo.parser Demo.listing_markup = Ok soup
    ∧ (length [Demo.book_one; Demo.bare_book "Book Three"]
       ≤ length (Soup.select soup Selectors.articles))%nat.
Proof.
  destruct (result_count_bounded Demo.parser Demo.site_404 "q" Demo.some_cookies []
              (mkResponse 200 Demo.listing_markup)
              [Demo.book_one; Demo.bare_book "Book Three"])
    as (soup & Hsoup & Hlen & _).
  - reflexivity.
  - vm_compute. reflexivity.
  - exists soup. split; [exact Hsoup | exact Hlen].
Defined.

Lemma requests_carry_cookies_witness :
  ∃ links,
    (search Demo.parser Demo.site_404 Cases.configured "q" []).2
    = search_request "q" Demo.some_cookies :: visits Demo.some_cookies links.
Proof.
  destruct (requests_carry_cookies Demo.parser Demo.site_404 Cases.configured "q" []
              Demo.some_cookies) as (links & Hlog & _).
  - vm_compute. reflexivity.
  - exists links. exact Hlog.
Defined.


Lemma stateless_site_per_link_witness :
  (perform_search Cases.parser Cases.site_skipping "q" Demo.some_cookies []).1
  = Ok [Demo.book_one; Demo.bare_book "Book Three"].
Proof.
  rewrite (stateless_site_per_link Cases.parser Cases.site_skipping "q" Demo.some_cookies []
             Cases.skipping_markup (Soup.document Cases.skipping_listing)
             [Demo.link_one; Demo.link_three]).
  - vm_compute. reflexivity.
  - intros log log' req. reflexivity.
  - reflexivity.
  - reflexivity.
  - vm_compute. reflexivity.
Defined.

(** ** Whitespace around the extracted text *)

Lemma lstrip_head (s : string) (c : ascii) (r : string) :
  Text.lstrip s = String c r → Text.isspace c = false.
Proof.
  induction s as [|c' s IH]; simpl; [discriminate|].
  destruct (Text.isspace c') eqn:Hc'; [exact IH|].
  intros [= <- _]. exact Hc'.
Qed.

Lemma rstrip_cons (c : ascii) (r : string) :
  Text.isspace c = false → Text.rstrip (String c r) = String c (Text.rstrip r).
Proof. intros Hc. simpl. rewrite Hc. destruct (Text.rstrip r); reflexivity. Qed.

Lemma rstrip_rstrip (s : string) : Text.rstrip (Text.rstrip s) = Text.rstrip s.
Proof.
  induction s as [|c s IH]; [reflexivity|].
  cbn [Text.rstrip]. destruct (Text.rstrip s) as [|c' s'] eqn:Hs.
  - destruct (Text.isspace c) eqn:Hc; [reflexivity|]. simpl. rewrite Hc. reflexivity.
  - cbn [Text.rstrip]. cbn [Text.rstrip] in IH. rewrite IH. reflexivity.
Qed.

(** What [strip] returns is empty or edged. *)
Lemma strip_edged (s : string) : Text.strip s = "" ∨ edged (Text.strip s).
Proof.
  unfold Text.strip. destruct (Text.lstrip s) as [|c r] eqn:Hl; [left; reflexivity|].
  right. pose proof (lstrip_head s c r Hl) as Hc.
  rewrite (rstrip_cons c r Hc). exists c, (Text.rstrip r).
  split; [reflexivity|]. split; [exact Hc|].
  rewrite (rstrip_cons c _ Hc), rstrip_rstrip. reflexivity.
Qed.

Lemma rstrip_app (a b : string) :
  Text.rstrip b ≠ "" → Text.rstrip (a +:+ b) = a +:+ Text.rstrip b.
Proof.
  intros Hb. induction a as [|c a IH]; [reflexivity|].
  cbn [String.append Text.rstrip]. rewrite IH.
  destruct (a +:+ Text.rstrip b) eqn:Happ; [|reflexivity].
  destruct a; [|discriminate]. simpl in Happ. congruence.
Qed.

Lemma edged_app (a sep b : string) : edged a → edged b → edged (a +:+ sep +:+ b).
Proof.
  intros (c & r & -> & Hc & Hr) (c' & r' & -> & Hc' & Hr').
  exists c, (r +:+ sep +:+ String c' r'). split; [reflexivity|]. split; [exact Hc|].
  assert (Hsep : Text.rstrip (sep +:+ String c' r') = sep +:+ String c' r').
  { rewrite rstrip_app; rewrite Hr'; [reflexivity | discriminate]. }
  rewrite rstrip_app; rewrite Hsep; [reflexivity|].
  destruct sep; discriminate.
Qed.

Lemma join_edged (sep : string) (parts : list string) :
  parts ≠ [] → Forall edged parts → edged (Text.join sep parts).
Proof.
  induction parts as [|p rest IH]; [congruence|].
  intros _ Hall. apply Forall_cons in Hall as [Hp Hrest].
  destruct rest as [|q rest]; [exact Hp|].
  change (edged (p +:+ sep +:+ Text.join sep (q :: rest))).
  apply edged_app; [exact Hp|]. apply IH; [discriminate | exact Hrest].
Qed.

Lemma rstrip_length (s : string) : (String.length (Text.rstrip s) ≤ String.length s)%nat.
Proof.
  induction s as [|c s IH]; [reflexivity|].
  cbn [Text.rstrip]. destruct (Text.rstrip s) as [|c' s'].
  - destruct (Text.isspace c); simpl; lia.
  - simpl in *. lia.
Qed.

Lemma rstrip_snoc_space (r : string) (c : ascii) :
  Text.isspace c = true → Text.rstrip (r +:+ String c "") = Text.rstrip r.
Proof.
  intros Hc. induction r as [|a r IH].
  - simpl. rewrite Hc. reflexivity.
  - cbn [String.append Text.rstrip]. rewrite IH. reflexivity.
Qed.

(** A string that [rstrip] leaves alone does not end in whitespace. *)
Lemma rstrip_fixed_last (r : string) (c : ascii) :
  Text.rstrip (r +:+ String c "") = r +:+ String c "" → Text.isspace c = false.
Proof.
  intros Hfixed. destruct (Text.isspace c) eqn:Hc; [|reflexivity].
  rewrite (rstrip_snoc_space r c Hc) in Hfixed.
  pose proof (rstrip_length r) as Hlen. rewrite Hfixed, length_append in Hlen.
  simpl in Hlen. lia.
Qed.

Lemma bare_ends_empty : bare_ends "".
Proof.
  split; [discriminate|]. intros r c H. destruct r; discriminate H.
Qed.

Lemma edged_bare_ends (s : string) : edged s → bare_ends s.
Proof.
  intros (c & r & -> & Hc & Hr). split.
  - intros c' r' [= <- _]. exact Hc.
  - intros r' c' Heq. rewrite Heq in Hr. exact (rstrip_fixed_last r' c' Hr).
Qed.

Lemma strip_bare_ends (s : string) : bare_ends (Text.strip s).
Proof.
  destruct (strip_edged s) as [-> | Hedged]; [apply bare_ends_empty|].
  apply edged_bare_ends, Hedged.
Qed.

(** [get_text] with [strip=True] never has whitespace at its ends,
    whatever the separator. *)
Lemma get_text_bare_ends (sep : string) (el : Soup.Element) :
  bare_ends (Soup.get_text sep el).
Proof.
  unfold Soup.get_text.
  set (strings := flat_map (Soup.all_strings (Soup.interesting_string_types el))
                    (Soup.contents el)).
  assert (Hall : Forall edged (List.filter Text.nonempty (map Text.strip strings))).
  { apply Forall_forall. intros piece Hin. apply list_elem_of_In in Hin.
    apply filter_In in Hin as [Hin Hne]. apply in_map_iff in Hin as (s & <- & _).
    destruct (strip_edged s) as [Hempty | Hedged]; [|exact Hedged].
    rewrite Hempty in Hne. discriminate. }
  destruct (List.filter Text.nonempty (map Text.strip strings)) as [|p rest] eqn:Hparts.
  - apply bare_ends_empty.
  - apply edged_bare_ends, join_edged; [discriminate | exact Hall].
Qed.

(** X9.  In every record the extraction returns, the title, the
    subtitle, the description, the published year, the language and
    each genre and tag neither begin nor end with a whitespace
    character. *)
Theorem record_text_trimmed (soup : Soup.Element) (r : BookMetadata) :
  parse_book soup = Ok r →
  bare_ends (title r)
  ∧ (∀ s, subtitle r = Some s → bare_ends s)
  ∧ (∀ s, description r = Some s → bare_ends s)
  ∧ (∀ s, publishedYear r = Some s → bare_ends s)
  ∧ (∀ s, language r = Some s → bare_ends s)
  ∧ (∀ gs g, genres r = Some gs → g ∈ gs → bare_ends g)
  ∧ (∀ ts t, tags r = Some ts → t ∈ ts → bare_ends t).
Proof.
  intros Hr.
  destruct (parse_book_inv soup r Hr)
    as (b & h1 & t & fig & style & d & Hb & Hh1 & Ht & Hc & Hs & Hd & ->).
  cbn [built_record new_BookMetadata title subtitle description publishedYear language
       genres tags].
  assert (Hfound : ∀ sep x s, text_if_found sep x = Some s → bare_ends s).
  { intros sep [el|] s; simpl; [|discriminate]. intros [= <-]. apply get_text_bare_ends. }
  assert (Htexts : ∀ (els : list Soup.Element) g,
            g ∈ map (Soup.get_text "") els → bare_ends g).
  { intros els g Hin. apply list_elem_of_In, in_map_iff in Hin as (el & <- & _).
    apply get_text_bare_ends. }
  split.
  { unfold first_content_strip in Ht.
    destruct (Soup.contents h1) as [|[n a cs|s|k s|s] rest]; try discriminate;
      try (injection Ht as <-; apply strip_bare_ends).
    destruct (Soup.find _ _); discriminate. }
  split; [apply Hfound|]. split; [apply Hfound|]. split; [apply Hfound|].
  split; [apply Hfound|]. split.
  - intros gs g [= <-]. apply Htexts.
  - intros ts g [= <-]. apply Htexts.
Qed.

Lemma record_text_trimmed_witness :
  ∃ r, parse_book (Soup.document Demo.full_page) = Ok r
       ∧ title r = "Book One"
       ∧ bare_ends (title r)
       ∧ description r = Some ("First." +:+ String Text.newline "Second.")
       ∧ ∀ s, description r = Some s → bare_ends s.
Proof.
  destruct (parse_book (Soup.document Demo.full_page)) as [r|e] eqn:Hr;
    [|vm_compute in Hr; discriminate Hr].
  exists r. destruct (record_text_trimmed _ r Hr) as (Htitle & _ & Hdescription & _).
  split; [reflexivity|].
  vm_compute in Hr. injection Hr as <-.
  split; [reflexivity|]. split; [exact Htitle|]. split; [reflexivity | exact Hdescription].
Defined.

(** ** The title heading *)

(** X10.  With the container and the [h1.title] heading found, a
    heading without children makes the extraction raise [IndexError],
    and a heading whose first child is a tag never gives a record:
    without a descendant tag named [strip] under that child the call
    of [.strip()] raises [TypeError] at once, and otherwise some later
    step raises. *)
Theorem title_heading_edge_cases (soup b h1 : Soup.Element) :
  Soup.select_one soup Selectors.book = Some b →
  Soup.select_one b Selectors.h1_title = Some h1 →
  (Soup.contents h1 = [] → parse_book soup = Raise IndexError)
  ∧ (∀ n a cs rest,
       Soup.contents h1 = Soup.Tag n a cs :: rest →
       ∃ e, parse_book soup = Raise e)
  ∧ (∀ n a cs rest,
       Soup.contents h1 = Soup.Tag n a cs :: rest →
       Soup.find (Soup.mkElement (Soup.header h1 :: Soup.parents h1) n a cs) "strip" = None →
       parse_book soup = Raise TypeError).
Proof.
  intros Hb Hh1. unfold parse_book. rewrite Hb. simpl. rewrite Hh1. simpl.
  unfold first_content_strip. split; [|split].
  - intros ->. reflexivity.
  - intros n a cs rest ->.
    destruct (Soup.find _ _); simpl; [|eauto].
    destruct (subscript (Soup.select_one b Selectors.cover) "style"); simpl; [|eauto].
    destruct (parse_duration (Soup.select_one b Selectors.timeRequired)); simpl; eauto.
  - intros n a cs rest -> ->. reflexivity.
Qed.

Lemma title_heading_edge_cases_witness :
  parse_book (Soup.document Cases.empty_heading_page) = Raise IndexError
  ∧ parse_book (Soup.document Cases.tag_heading_page) = Raise TypeError
  ∧ ∃ e, parse_book (Soup.document Cases.strip_heading_page) = Raise e.
Proof.
  split; [|split].
  - edestruct (title_heading_edge_cases (Soup.document Cases.empty_heading_page))
      as (H & _ & _); [reflexivity | reflexivity | apply H; reflexivity].
  - edestruct (title_heading_edge_cases (Soup.document Cases.tag_heading_page))
      as (_ & _ & H); [reflexivity | reflexivity | eapply H; reflexivity].
  - edestruct (title_heading_edge_cases (Soup.document Cases.strip_heading_page))
      as (_ & H & _); [reflexivity | reflexivity | eapply H; reflexivity].
Defined.

(** ** Where a cover comes from *)

Lemma search_url_inv (style tok : string) :
  Re.search_url style = Some tok →
  ∃ pre post, first_url_occurrence style pre tok post.
Proof.
  induction style as [|c style IH]; cbn [Re.search_url].
  - destruct (Re.url_at "") as [tok'|] eqn:Hat; [|discriminate]. discriminate Hat.
  - destruct (Re.url_at (String c style)) as [tok'|] eqn:Hat.
    + intros [= <-]. apply url_at_spec in Hat as [post Hocc].
      exists "", post. split; [exact Hocc|]. intros pre' tok'' post' _. simpl. lia.
    + intros Hsearch. destruct (IH Hsearch) as (pre & post & (Hs & Hp & Hn) & Hfirst).
      exists (String c pre), post. split.
      * repeat split; try assumption. exact (f_equal (String c) Hs).
      * intros pre' tok' post' (Hs' & Hp' & Hn'). destruct pre' as [|c' pre'].
        -- assert (Re.url_at (String c style) = Some tok') as Hhit.
           { apply url_at_spec. exists post'. repeat split; assumption. }
           congruence.
        -- injection Hs' as <- Hs'.
           assert (String.length pre ≤ String.length pre')%nat
             by (apply (Hfirst pre' tok' post'); repeat split; assumption).
           simpl. lia.
Qed.

Lemma search_url_none_inv (style : string) :
  Re.search_url style = None → ∀ pre tok post, ¬ url_occurrence style pre tok post.
Proof.
  induction style as [|c style IH]; cbn [Re.search_url].
  - intros _ pre tok post (Hs & _). destruct pre; discriminate Hs.
  - destruct (Re.url_at (String c style)) as [tok'|] eqn:Hat; [discriminate|].
    intros Hsearch pre tok post (Hs & Hp & Hn). destruct pre as [|c' pre].
    + assert (Re.url_at (String c style) = Some tok) as Hhit.
      { apply url_at_spec. exists post. repeat split; assumption. }
      congruence.
    + injection Hs as <- Hs. apply (IH Hsearch pre tok post). repeat split; assumption.
Qed.

(** X11.  In every record the extraction returns, a cover that is
    present is the token of the leftmost [url(...)] occurrence of the
    cover element's style, so it holds neither a [")"] nor a line
    feed, and an absent cover means the style has no such occurrence
    at all. *)
Theorem cover_provenance (soup : Soup.Element) (r : BookMetadata) :
  parse_book soup = Ok r →
  ∃ b fig style,
    Soup.select_one soup Selectors.book = Some b
    ∧ Soup.select_one b Selectors.cover = Some fig
    ∧ Soup.get fig "style" = Some style
    ∧ (∀ tok, cover r = Some tok →
              has_char ")" tok = false
              ∧ has_char Text.newline tok = false
              ∧ ∃ pre post, first_url_occurrence style pre tok post)
    ∧ (cover r = None → ∀ pre tok post, ¬ url_occurrence style pre tok post).
Proof.
  intros Hr.
  destruct (parse_book_fields soup r Hr) as (b & fig & style & Hb & Hc & Hs & Hcover & _).
  exists b, fig, style. rewrite Hcover. repeat split; try assumption.
  - destruct (search_url_inv style tok H) as (pre & post & (_ & Hp & _) & _). exact Hp.
  - destruct (search_url_inv style tok H) as (pre & post & (_ & _ & Hn) & _). exact Hn.
  - apply search_url_inv, H.
  - apply search_url_none_inv.
Qed.

Lemma cover_provenance_witness :
  has_char ")" "'x.jpg'" = false.
Proof.
  destruct (cover_provenance (Soup.document Demo.full_page) Demo.book_one)
    as (b & fig & style & _ & _ & _ & Hsome & _); [vm_compute; reflexivity|].
  exact (proj1 (Hsome "'x.jpg'" eq_refl)).
Defined.

(** ** The range of the duration *)

Lemma digit_value_nonneg (c : ascii) :
  Text.isdigit c = true → (0 ≤ Text.digit_value c)%Z.
Proof.
  unfold Text.isdigit, Text.digit_value. intros H.
  apply andb_true_iff in H as [H _]. apply N.leb_le in H. lia.
Qed.

Lemma int_acc_nonneg (ds : string) : ∀ acc,
  all_digits ds = true → (0 ≤ acc)%Z → (0 ≤ Text.int_acc acc ds)%Z.
Proof.
  induction ds as [|c ds IH]; intros acc Hds Hacc; [exact Hacc|].
  simpl in Hds. apply andb_true_iff in Hds as [Hc Hds].
  cbn [Text.int_acc]. apply IH; [exact Hds|].
  pose proof (digit_value_nonneg c Hc). lia.
Qed.

(** X12.  In every record the extraction returns, a duration that is
    present is a whole number of hours in seconds: [3600 * h] for a
    natural number [h], never negative. *)
Theorem duration_whole_hours (soup : Soup.Element) (r : BookMetadata) (d : Z) :
  parse_book soup = Ok r →
  duration r = Some d →
  ∃ h : N, d = (Z.of_N h * 3600)%Z.
Proof.
  intros Hr Hd.
  destruct (parse_book_fields soup r Hr) as (b & fig & style & _ & _ & _ & _ & Hduration).
  rewrite Hd in Hduration. unfold parse_duration in Hduration.
  destruct (Soup.select_one b Selectors.timeRequired) as [meta|]; [|discriminate].
  destruct (Soup.get meta "content") as [content|]; [|discriminate].
  destruct (Text.nonempty content); [|discriminate].
  destruct (Re.match_hours content) as [ds|] eqn:Hm; [|discriminate].
  unfold Text.int in Hduration.
  destruct (Text.int_max_str_digits <? N.of_nat (String.length ds))%N; [discriminate|].
  injection Hduration as <-. apply match_hours_spec in Hm as (_ & Hds & _).
  exists (Z.to_N (Text.decimal ds)). rewrite Z2N.id; [reflexivity|].
  apply int_acc_nonneg; [exact Hds | lia].
Qed.

Lemma duration_whole_hours_witness : ∃ h : N, 18000%Z = (Z.of_N h * 3600)%Z.
Proof.
  apply (duration_whole_hours (Soup.document Demo.full_page) Demo.book_one).
  - vm_compute. reflexivity.
  - reflexivity.
Defined.

(** ** Which fields a record fills *)

(** X13.  Every record the extraction returns leaves [author],
    [narrator], [isbn] and [asin] absent and [series] empty, and has
    [genres] and [tags] present with one entry per matching anchor, in
    the order of the anchors. *)
Theorem record_unfilled_fields (soup : Soup.Element) (r : BookMetadata) :
  parse_book soup = Ok r →
  author r = None ∧ narrator r = None ∧ isbn r = None ∧ asin r = None
  ∧ series r = Some []
  ∧ ∃ b, Soup.select_one soup Selectors.book = Some b
         ∧ (∃ gs, genres r = Some gs
                  ∧ length gs = length (Soup.select b Selectors.genre)
                  ∧ ∀ i a, Soup.select b Selectors.genre !! i = Some a →
                           gs !! i = Some (Soup.get_text "" a))
         ∧ (∃ ts, tags r = Some ts
                  ∧ length ts = length (Soup.select b Selectors.keywords)
                  ∧ ∀ i a, Soup.select b Selectors.keywords !! i = Some a →
                           ts !! i = Some (Soup.get_text "" a)).
Proof.
  intros Hr.
  destruct (parse_book_inv soup r Hr)
    as (b & h1 & t & fig & style & d & Hb & Hh1 & Ht & Hc & Hs & Hd & ->).
  simpl. repeat (split; [reflexivity|]).
  exists b. split; [exact Hb|]. split.
  - eexists. split; [reflexivity|]. split; [apply length_map|].
    intros i a Hi. change (map (Soup.get_text "")) with (fmap (M := list) (Soup.get_text "")).
    rewrite list_lookup_fmap, Hi. reflexivity.
  - eexists. split; [reflexivity|]. split; [apply length_map|].
    intros i a Hi. change (map (Soup.get_text "")) with (fmap (M := list) (Soup.get_text "")).
    rewrite list_lookup_fmap, Hi. reflexivity.
Qed.

Lemma record_unfilled_fields_witness :
  author Demo.book_one = None ∧ series Demo.book_one = Some [].
Proof.
  destruct (record_unfilled_fields (Soup.document Demo.full_page) Demo.book_one)
    as (Ha & _ & _ & _ & Hs & _); [vm_compute; reflexivity|].
  split; [exact Ha | exact Hs].
Defined.

(** X14.  In every record the extraction returns, the subtitle, the
    description, the published year and the language are absent
    exactly when their element is missing from the container, and the
    publisher exactly when no publisher anchor is found: an element
    that is there but holds no text gives the empty string, not an
    absent field. *)
Theorem optional_absent_iff_missing (soup : Soup.Element) (r : BookMetadata) :
  parse_book soup = Ok r →
  ∃ b, Soup.select_one soup Selectors.book = Some b
       ∧ (subtitle r = None ↔ Soup.select_one b Selectors.span_subtitle = None)
       ∧ (description r = None ↔ Soup.select_one b Selectors.description = None)
       ∧ (publishedYear r = None ↔ Soup.select_one b Selectors.dateCreated = None)
       ∧ (language r = None ↔ Soup.select_one b Selectors.locationCreated = None)
       ∧ (publisher r = None ↔ Soup.select b Selectors.publishers = [])
       ∧ (∀ el, Soup.select_one b Selectors.span_subtitle = Some el →
                Soup.get_text "" el = "" → subtitle r = Some "").
Proof.
  intros Hr.
  destruct (parse_book_inv soup r Hr)
    as (b & h1 & t & fig & style & d & Hb & Hh1 & Ht & Hc & Hs & Hd & ->).
  simpl. exists b. split; [exact Hb|].
  assert (Hfound : ∀ sep x, text_if_found sep x = None ↔ x = None).
  { intros sep [el|]; simpl; split; intros H; try discriminate; reflexivity. }
  repeat (split; [apply Hfound|]). split.
  - unfold publisher_of. destruct (Soup.select b Selectors.publishers); split;
      intros H; try discriminate; reflexivity.
  - intros el -> Htext. simpl. rewrite Htext. reflexivity.
Qed.

Lemma optional_absent_iff_missing_witness :
  subtitle (Demo.bare_book "Book Two") = None.
Proof.
  destruct (optional_absent_iff_missing (Soup.document (Demo.bare_page "Book Two"))
              (Demo.bare_book "Book Two")) as (b & Hb & Hsub & _); [vm_compute; reflexivity|].
  apply Hsub. vm_compute in Hb. injection Hb as <-. vm_compute. reflexivity.
Defined.

(** ** The empty publisher *)

(** X15.  In every record the extraction returns, the publisher is
    the empty string exactly when there is a single publisher anchor
    and it holds no text. *)
Theorem publisher_empty_string (soup : Soup.Element) (r : BookMetadata) :
  parse_book soup = Ok r →
  ∃ b, Soup.select_one soup Selectors.book = Some b
       ∧ (publisher r = Some ""
          ↔ ∃ a, Soup.select b Selectors.publishers = [a] ∧ Soup.get_text "" a = "").
Proof.
  intros Hr.
  destruct (parse_book_inv soup r Hr)
    as (b & h1 & t & fig & style & d & Hb & Hh1 & Ht & Hc & Hs & Hd & ->).
  cbn [built_record new_BookMetadata publisher]. exists b. split; [exact Hb|].
  unfold publisher_of. destruct (Soup.select b Selectors.publishers) as [|a rest].
  - split; [discriminate|]. intros (a & [=] & _).
  - destruct rest as [|a2 rest].
    + split.
      * intros [= Htext]. eauto.
      * intros (a' & [= <-] & Htext). simpl. rewrite Htext. reflexivity.
    + split.
      * intros Hjoin. exfalso. revert Hjoin.
        change (Text.join ", " (map (Soup.get_text "") (a :: a2 :: rest)))
          with (Soup.get_text "" a +:+ ", "
                +:+ Text.join ", " (map (Soup.get_text "") (a2 :: rest))).
        destruct (Soup.get_text "" a); discriminate.
      * intros (a' & [=] & _).
Qed.

Lemma publisher_empty_string_witness :
  ∃ r, parse_book (Soup.document Cases.blank_publisher_page) = Ok r
       ∧ publisher r = Some "".
Proof.
  destruct (parse_book (Soup.document Cases.blank_publisher_page)) as [r|e] eqn:Hr;
    [|vm_compute in Hr; discriminate Hr].
  exists r. split; [reflexivity|].
  destruct (publisher_empty_string _ r Hr) as (b & Hb & Hiff).
  apply Hiff. vm_compute in Hb. injection Hb as <-.
  eexists. split; vm_compute; reflexivity.
Defined.

(** ** From the environment to the requests *)

(** X16.  When the three variables are set and non-empty in the
    environment of the import, every request of a search carries the
    value of [DLE_USER_ID] as the cookie [dle_user_id], that of
    [DLE_PASSWORD] as [dle_password] and that of [PHPSESSID] as
    [PHPSESSID], and at least the listing request is issued. *)
Theorem environment_reaches_requests (html_parser : string → option (list Soup.PageElement))
    (remote : list Request → Request → option Response)
    (env : gmap string string) (user password session : string) query log :
  env !! "DLE_USER_ID" = Some user →
  env !! "DLE_PASSWORD" = Some password →
  env !! "PHPSESSID" = Some session →
  user ≠ "" → password ≠ "" → session ≠ "" →
  ∃ issued,
    (search html_parser remote (import_module env) query log).2 = (log ++ issued)%list
    ∧ issued ≠ []
    ∧ Forall (fun req =>
                cookies_of req !! "dle_user_id" = Some (Some user)
                ∧ cookies_of req !! "dle_password" = Some (Some password)
                ∧ cookies_of req !! "PHPSESSID" = Some (Some session))
        issued.
Proof.
  intros Hu Hp Hs Hune Hpne Hsne.
  set (cookies := <["dle_user_id" := Some user]>
                    (<["dle_password" := Some password]>
                       (<["PHPSESSID" := Some session]> (∅ : gmap string (option string))))).
  assert (Hget : get_auth_cookies (import_module env) = Ok cookies).
  { unfold get_auth_cookies, import_module, getenv, all. simpl. rewrite Hu, Hp, Hs. simpl.
    destruct user; [congruence|]. destruct password; [congruence|].
    destruct session; [congruence|]. reflexivity. }
  destruct (perform_search_log html_parser remote query cookies log) as [links Hlog].
  exists (search_request query cookies :: visits cookies links). split; [|split].
  - unfold search. unfold mbind at 1. unfold io_bind, lift. rewrite Hget.
    unfold mbind, io_bind.
    destruct (perform_search html_parser remote query cookies log) as [[books|e] log'];
      exact Hlog.
  - discriminate.
  - assert (Hcookies : cookies !! "dle_user_id" = Some (Some user)
                       ∧ cookies !! "dle_password" = Some (Some password)
                       ∧ cookies !! "PHPSESSID" = Some (Some session)).
    { unfold cookies.
      split; [|split]; rewrite ?lookup_insert_ne by discriminate; apply lookup_insert_eq. }
    constructor; [exact Hcookies|]. unfold visits. apply Forall_map.
    apply Forall_forall. intros link _. exact Hcookies.
Qed.

Lemma environment_reaches_requests_witness :
  ∃ issued,
    (search Demo.parser Demo.site_404 (import_module secrets_env) "q" []).2 = issued
    ∧ issued ≠ [].
Proof.
  destruct (environment_reaches_requests Demo.parser Demo.site_404 secrets_env
              "1" "p" "s" "q" []) as (issued & Hlog & Hne & _);
    [vm_compute; reflexivity | vm_compute; reflexivity | vm_compute; reflexivity
    | discriminate | discriminate | discriminate |].
  exists issued. split; [exact Hlog | exact Hne].
Defined.
